(** * Error-as-values benchmark: a shallow embedding of the three strategies

    The development follows the Python sources file by file:
    - [benchmark_exception.py], [benchmark_tuple.py] and [benchmark_union.py]:
      the same text pipeline written three times, once per error-propagation
      idiom, each at two call-stack depths;
    - [run_benchmarks.py]: the per-function statistics and the derived
      microseconds-per-test figure.

    Python values are an inductive type, [str] methods are functions on
    [string], a raised exception is the left summand of a sum type, the
    [(value, error)] pairs and the [datetime | Exception] unions are modelled
    as the code builds them.

    Modelling conventions.
    - Text is a sequence of 8-bit characters read as ASCII code points; the
      character classes and case maps are CPython's on code points below 128,
      code points above 127 are carried unchanged.
    - A [float] is carried as its [repr] text ([repr] of a float round-trips,
      so the text determines the value).
    - Elapsed times are exact rationals. *)

From Stdlib Require Import ZArith QArith String Ascii List Bool Lia.
From Stdlib Require Import DecimalString.
From stdpp Require Import gmap strings.
Import ListNotations.

Local Open Scope string_scope.
Local Open Scope list_scope.

(** ** Python [str] methods *)

Module Str.

(** The double quote and the apostrophe. *)
Definition dquote : ascii := "034"%char.
Definition squote : ascii := "039"%char.
Definition tab : ascii := "009"%char.
Definition newline : ascii := "010"%char.
Definition carriage_return : ascii := "013"%char.

Definition chr (c : ascii) : string := String c EmptyString.

(** [str.isspace] on one ASCII code point: 9..13, 28..31 and 32. *)
Definition isspace (c : ascii) : bool :=
  let n := N_of_ascii c in
  (((9 <=? n) && (n <=? 13)) || ((28 <=? n) && (n <=? 32)))%N.

Definition isdigit (c : ascii) : bool :=
  let n := N_of_ascii c in ((48 <=? n) && (n <=? 57))%N.

Definition isupper (c : ascii) : bool :=
  let n := N_of_ascii c in ((65 <=? n) && (n <=? 90))%N.

Definition islower (c : ascii) : bool :=
  let n := N_of_ascii c in ((97 <=? n) && (n <=? 122))%N.

Definition iscased (c : ascii) : bool := isupper c || islower c.

Definition lower_char (c : ascii) : ascii :=
  if isupper c then ascii_of_N (N_of_ascii c + 32) else c.

Definition upper_char (c : ascii) : ascii :=
  if islower c then ascii_of_N (N_of_ascii c - 32) else c.

(** [s.lower()] and [s.upper()]. *)
Fixpoint lower (s : string) : string :=
  match s with
  | EmptyString => EmptyString
  | String c s' => String (lower_char c) (lower s')
  end.

Fixpoint upper (s : string) : string :=
  match s with
  | EmptyString => EmptyString
  | String c s' => String (upper_char c) (upper s')
  end.

(** [s.title()]: a cased character is upper-cased when the character before
    it is not cased and lower-cased otherwise. *)
Fixpoint title_from (previous_is_cased : bool) (s : string) : string :=
  match s with
  | EmptyString => EmptyString
  | String c s' =>
      if iscased c
      then String (if previous_is_cased then lower_char c else upper_char c)
                  (title_from true s')
      else String c (title_from false s')
  end.

Definition title (s : string) : string := title_from false s.

(** [s.lstrip], [s.rstrip] and [s.strip] over a character class. *)
Fixpoint lstrip_with (p : ascii -> bool) (s : string) : string :=
  match s with
  | EmptyString => EmptyString
  | String c s' => if p c then lstrip_with p s' else s
  end.

Fixpoint rstrip_with (p : ascii -> bool) (s : string) : string :=
  match s with
  | EmptyString => EmptyString
  | String c s' =>
      match rstrip_with p s' with
      | EmptyString => if p c then EmptyString else chr c
      | r => String c r
      end
  end.

Definition strip_with (p : ascii -> bool) (s : string) : string :=
  rstrip_with p (lstrip_with p s).

(** [s.strip()] with no argument strips whitespace. *)
Definition strip (s : string) : string := strip_with isspace s.

Fixpoint mem_char (c : ascii) (chars : string) : bool :=
  match chars with
  | EmptyString => false
  | String d chars' => Ascii.eqb c d || mem_char c chars'
  end.

(** [s.strip(chars)] strips the characters of [chars]. *)
Definition strip_chars (chars : string) (s : string) : string :=
  strip_with (fun c => mem_char c chars) s.

(** [s.split()] with no argument: the maximal runs of non-whitespace. *)
Fixpoint split (s : string) : list string :=
  match s with
  | EmptyString => []
  | String c s' =>
      let rest := split s' in
      if isspace c then rest
      else match s' with
           | EmptyString => [chr c]
           | String c' _ =>
               if isspace c' then chr c :: rest
               else match rest with
                    | w :: ws => String c w :: ws
                    | [] => [chr c]
                    end
           end
  end.

(** [sep.join(parts)]. *)
Fixpoint join (sep : string) (parts : list string) : string :=
  match parts with
  | [] => EmptyString
  | [x] => x
  | x :: (_ :: _) as rest => x +:+ sep +:+ join sep rest
  end.

(** [s.replace(old, new)] for a non-empty [old], as at every call of the
    sources: occurrences are replaced left to right without overlap;
    [skip] counts the characters of the occurrence still to be dropped. *)
Fixpoint replace_from (old new : string) (skip : nat) (s : string) : string :=
  match s with
  | EmptyString => EmptyString
  | String c s' =>
      match skip with
      | S k => replace_from old new k s'
      | O =>
          if String.prefix old s
          then new +:+ replace_from old new (String.length old - 1) s'
          else String c (replace_from old new 0 s')
      end
  end.

Definition replace (old new : string) (s : string) : string :=
  replace_from old new 0 s.

(** [sub in s]. *)
Fixpoint contains (sub : string) (s : string) : bool :=
  String.prefix sub s ||
  match s with
  | EmptyString => false
  | String _ s' => contains sub s'
  end.

(** [len(s)]. *)
Definition len (s : string) : Z := Z.of_nat (String.length s).

(** Truth value of a [str]: non-empty. *)
Definition truthy (s : string) : bool :=
  match s with EmptyString => false | String _ _ => true end.

End Str.

(** ** Python values *)

(** A message is whatever [json.load] produces.  Dictionaries keep their
    insertion order, so they are association lists. *)
#[warnings="-register-all"]
Inductive PyVal : Type :=
| PyNone
| PyBool (b : bool)
| PyInt (n : Z)
| PyFloat (repr : string)
| PyStr (s : string)
| PyList (items : list PyVal)
| PyDict (items : list (string * PyVal)).

(** The exceptions that occur, each with the text it was built with. *)
Inductive PyExc : Type :=
| TypeError (msg : string)
| ValueError (msg : string)
| KeyError (key : string)
| ZeroDivisionError (msg : string).

(** [type(e).__name__]. *)
Definition exc_name (e : PyExc) : string :=
  match e with
  | TypeError _ => "TypeError"
  | ValueError _ => "ValueError"
  | KeyError _ => "KeyError"
  | ZeroDivisionError _ => "ZeroDivisionError"
  end.

(** [type(v).__name__]. *)
Definition type_name (v : PyVal) : string :=
  match v with
  | PyNone => "NoneType"
  | PyBool _ => "bool"
  | PyInt _ => "int"
  | PyFloat _ => "float"
  | PyStr _ => "str"
  | PyList _ => "list"
  | PyDict _ => "dict"
  end.

(** [isinstance(v, dict)] and [isinstance(v, str)]. *)
Definition is_dict (v : PyVal) : bool :=
  match v with PyDict _ => true | _ => false end.

Definition is_str (v : PyVal) : bool :=
  match v with PyStr _ => true | _ => false end.

(** [v is None]. *)
Definition is_none (v : PyVal) : bool :=
  match v with PyNone => true | _ => false end.

Module Repr.

Definition hex_digit (n : N) : ascii :=
  if (n <? 10)%N then ascii_of_N (48 + n) else ascii_of_N (87 + n).

Definition backslash : ascii := "092"%char.

(** One character of [repr(s)] inside the quote character [q]. *)
Definition escape_char (q : ascii) (c : ascii) : string :=
  let n := N_of_ascii c in
  if Ascii.eqb c q || Ascii.eqb c backslash then String backslash (Str.chr c)
  else if Ascii.eqb c Str.tab then String backslash "t"
  else if Ascii.eqb c Str.newline then String backslash "n"
  else if Ascii.eqb c Str.carriage_return then String backslash "r"
  else if ((n <? 32) || (n =? 127))%N
       then String backslash
              (String "x" (String (hex_digit (n / 16)) (Str.chr (hex_digit (n mod 16)))))
  else Str.chr c.

Fixpoint escape (q : ascii) (s : string) : string :=
  match s with
  | EmptyString => EmptyString
  | String c s' => escape_char q c +:+ escape q s'
  end.

(** [repr] of a [str]: apostrophes around it, unless it holds an apostrophe
    and no double quote. *)
Definition repr_str (s : string) : string :=
  let q := if Str.mem_char Str.squote s && negb (Str.mem_char Str.dquote s)
           then Str.dquote else Str.squote in
  String q (escape q s +:+ Str.chr q).

(** [str] of an [int]. *)
Definition str_int (n : Z) : string := NilZero.string_of_int (Z.to_int n).

(** [repr(v)]. *)
Fixpoint repr (v : PyVal) : string :=
  match v with
  | PyNone => "None"
  | PyBool true => "True"
  | PyBool false => "False"
  | PyInt n => str_int n
  | PyFloat text => text
  | PyStr s => repr_str s
  | PyList items => "[" +:+ Str.join ", " (map repr items) +:+ "]"
  | PyDict items =>
      "{" +:+ Str.join ", "
                (map (fun kv => match kv with
                                | (k, x) => repr_str k +:+ ": " +:+ repr x
                                end) items) +:+ "}"
  end.

End Repr.

(** [str(v)]: a [str] is itself, everything else prints as its [repr]. *)
Definition py_str (v : PyVal) : string :=
  match v with
  | PyStr s => s
  | _ => Repr.repr v
  end.

(** ** Exceptions as values of a sum type *)

Definition exc (A : Type) : Type := (PyExc + A)%type.

Definition raise {A : Type} (e : PyExc) : exc A := inl e.
Definition ret {A : Type} (a : A) : exc A := inr a.

Definition bind {A B : Type} (m : exc A) (k : A -> exc B) : exc B :=
  match m with
  | inl e => inl e
  | inr a => k a
  end.

Notation "x <- m ;; k" := (bind m (fun x => k))
  (at level 100, m at next level, right associativity).

(** ** Dictionaries *)

Fixpoint dict_lookup (items : list (string * PyVal)) (key : string) : option PyVal :=
  match items with
  | [] => None
  | (k, v) :: rest => if String.eqb k key then Some v else dict_lookup rest key
  end.

(** [d.get(key, default)]. *)
Definition dict_get (items : list (string * PyVal)) (key : string) (default : PyVal) : PyVal :=
  match dict_lookup items key with
  | Some v => v
  | None => default
  end.

(** [d.values()]. *)
Definition dict_values (items : list (string * PyVal)) : list PyVal := map snd items.

(** [v[key]] for a [str] key: a dictionary raises [KeyError] on a missing
    key, anything else is not subscriptable by a [str]. *)
Definition py_getitem (v : PyVal) (key : string) : exc PyVal :=
  match v with
  | PyDict items =>
      match dict_lookup items key with
      | Some x => ret x
      | None => raise (KeyError key)
      end
  | PyList _ => raise (TypeError "list indices must be integers or slices, not str")
  | PyStr _ => raise (TypeError "string indices must be integers, not 'str'")
  | _ => raise (TypeError ("'" +:+ type_name v +:+ "' object is not subscriptable"))
  end.

(** ** [datetime] and [datetime.strptime] *)

Record datetime : Type := mk_datetime {
  year : Z; month : Z; day : Z; hour : Z; minute : Z; second : Z
}.

(** The one format the benchmark parses. *)
Definition timestamp_format : string := "%Y-%m-%d %H:%M:%S".

(** [datetime.strptime(s, timestamp_format)], following CPython's
    [_strptime]: the format becomes a regular expression whose directives
    are ordered alternatives of character-class sequences, the expression is
    matched at the start of the text by backtracking, text left over is an
    error, and the numbers found are then checked by the [date] and
    [datetime] constructors.  The complaints are worded as CPython 3.12
    words them. *)
Module Strptime.

Definition char_class : Type := ascii -> bool.

Definition between (lo hi : string) : char_class :=
  fun c =>
    match lo, hi with
    | String l _, String h _ =>
        ((N_of_ascii l <=? N_of_ascii c) && (N_of_ascii c <=? N_of_ascii h))%N
    | _, _ => false
    end.

Definition exactly (x : string) : char_class := between x x.

(** A directive: alternatives tried in order, each a sequence of classes. *)
Definition directive : Type := list (list char_class).

Definition d : char_class := Str.isdigit.

Definition dir_Y : directive := [[d; d; d; d]].
Definition dir_m : directive :=
  [[exactly "1"; between "0" "2"]; [exactly "0"; between "1" "9"]; [between "1" "9"]].
Definition dir_d : directive :=
  [[exactly "3"; between "0" "1"]; [between "1" "2"; d]; [exactly "0"; between "1" "9"];
   [between "1" "9"]; [exactly " "; between "1" "9"]].
Definition dir_H : directive :=
  [[exactly "2"; between "0" "3"]; [between "0" "1"; d]; [d]].
Definition dir_M : directive := [[between "0" "5"; d]; [d]].
Definition dir_S : directive :=
  [[exactly "6"; between "0" "1"]; [between "0" "5"; d]; [d]].

(** Match a sequence of classes at the start of [s]: the text matched and
    the rest. *)
Fixpoint match_seq (classes : list char_class) (s : string) : option (string * string) :=
  match classes with
  | [] => Some (EmptyString, s)
  | p :: classes' =>
      match s with
      | EmptyString => None
      | String c s' =>
          if p c
          then match match_seq classes' s' with
               | Some (m, rest) => Some (String c m, rest)
               | None => None
               end
          else None
      end
  end.

(** Match a directive and then the continuation [k], falling back on the
    next alternative when the continuation fails. *)
Fixpoint match_directive {A : Type} (alts : directive) (s : string)
    (k : string -> string -> option A) : option A :=
  match alts with
  | [] => None
  | alt :: alts' =>
      match match_seq alt s with
      | Some (m, rest) =>
          match k m rest with
          | Some r => Some r
          | None => match_directive alts' s k
          end
      | None => match_directive alts' s k
      end
  end.

(** A literal character of the format. *)
Definition match_literal {A : Type} (x : string) (s : string)
    (k : string -> option A) : option A :=
  match s with
  | String c rest => if exactly x c then k rest else None
  | EmptyString => None
  end.

(** The blank of the format stands for one or more whitespace characters;
    the directive after it starts with a digit, so giving whitespace back
    never helps and the greedy match is the only one to try. *)
Definition match_blanks {A : Type} (s : string) (k : string -> option A) : option A :=
  match s with
  | String c rest => if Str.isspace c then k (Str.lstrip_with Str.isspace rest) else None
  | EmptyString => None
  end.

(** [int(text)] for the text of a directive: digits, after an optional
    blank. *)
Fixpoint int_of_digits (acc : Z) (s : string) : Z :=
  match s with
  | EmptyString => acc
  | String c s' =>
      if Str.isdigit c
      then int_of_digits (10 * acc + (Z.of_N (N_of_ascii c) - 48)) s'
      else int_of_digits acc s'
  end.

Definition int (s : string) : Z := int_of_digits 0 s.

(** The groups found and the text after the match. *)
Definition regex_match (s : string) : option (datetime * string) :=
  match_directive dir_Y s (fun gY s1 =>
  match_literal "-" s1 (fun s2 =>
  match_directive dir_m s2 (fun gm s3 =>
  match_literal "-" s3 (fun s4 =>
  match_directive dir_d s4 (fun gd s5 =>
  match_blanks s5 (fun s6 =>
  match_directive dir_H s6 (fun gH s7 =>
  match_literal ":" s7 (fun s8 =>
  match_directive dir_M s8 (fun gM s9 =>
  match_literal ":" s9 (fun s10 =>
  match_directive dir_S s10 (fun gS rest =>
  Some (mk_datetime (int gY) (int gm) (int gd) (int gH) (int gM) (int gS), rest)))))))))))).

Definition is_leap (y : Z) : bool :=
  (y mod 4 =? 0)%Z && (negb (y mod 100 =? 0)%Z || (y mod 400 =? 0)%Z).

Definition days_in_month (y m : Z) : Z :=
  if (m =? 2)%Z then (if is_leap y then 29 else 28)
  else if ((m =? 4) || (m =? 6) || (m =? 9) || (m =? 11))%Z then 30
  else 31.

(** The result: the complaint of the [ValueError], or the timestamp. *)
Definition strptime (s : string) : string + datetime :=
  match regex_match s with
  | None =>
      inl ("time data " +:+ Repr.repr_str s +:+ " does not match format "
           +:+ Repr.repr_str timestamp_format)
  | Some (dt, rest) =>
      if Str.truthy rest then inl ("unconverted data remains: " +:+ rest)
      else if (year dt <? 1)%Z
           then inl ("year " +:+ Repr.str_int (year dt) +:+ " is out of range")
      else if (days_in_month (year dt) (month dt) <? day dt)%Z
           then inl "day is out of range for month"
      else if (59 <? second dt)%Z then inl "second must be in 0..59"
      else inr dt
  end.

End Strptime.

(** ** What every runner returns *)

(** [{"success": 0, "failure": 0, "errors": []}], a dictionary of fixed
    shape. *)
Record Results : Type := mk_results {
  success : Z;
  failure : Z;
  errors : list string
}.

Definition initial_results : Results := mk_results 0 0 [].

(** [results["success"] += 1]. *)
Definition count_success (results : Results) : Results :=
  mk_results (success results + 1) (failure results) (errors results).

(** [results["failure"] += 1; results["errors"].append(name)]. *)
Definition count_failure (results : Results) (name : string) : Results :=
  mk_results (success results) (failure results + 1) (errors results ++ [name]).

(** A [for] loop whose body may let an exception escape: the loop stops at
    the first one and the state built so far is lost with the frame. *)
Fixpoint for_each {S X : Type} (body : S -> X -> exc S) (xs : list X) (s : S) : exc S :=
  match xs with
  | [] => ret s
  | x :: xs' => s' <- body s x ;; for_each body xs' s'
  end.

(** ** [benchmark_exception.py] *)

Module benchmark_exception.


(** Level 3 of the shallow stack: the only level that raises. *)
Definition validate_format_shallow_exc (datetime_str : PyVal) : exc datetime :=
  match datetime_str with
  | PyStr text =>
      if negb (Str.truthy text) then raise (ValueError "Empty datetime string")
      else match Strptime.strptime text with
           | inr dt => ret dt
           | inl e => raise (ValueError ("Failed to parse datetime: " +:+ e))
           end
  | _ => raise (TypeError ("Expected string, got " +:+ type_name datetime_str))
  end.

(** Level 2: text processing, nothing raised here. *)
Definition parse_datetime_shallow_exc (timestamp_str : string) : exc datetime :=
  let normalized := Str.join " " (Str.split timestamp_str) in
  let cleaned :=
    Str.replace "|" " " (Str.replace ";" EmptyString (Str.replace "," EmptyString normalized)) in
  let cleaned := Str.join " " (Str.split cleaned) in
  let temp := Str.lower (Str.title cleaned) in
  let parts := Str.split temp in
  let rejoined := Str.join " " parts in
  validate_format_shallow_exc (PyStr rejoined).

(** Level 1: extract the timestamp, nothing raised here. *)
Definition parse_message_shallow_exc (message : PyVal) : exc datetime :=
  let msg_str := if negb (is_dict message) then py_str message else EmptyString in
  let timestamp :=
    match message with
    | PyDict items => dict_get items "timestamp" (PyStr EmptyString)
    | _ => PyStr EmptyString
    end in
  let timestamp_str := if is_none timestamp then EmptyString else py_str timestamp in
  let cleaned :=
    Str.replace (Str.chr Str.carriage_return) " "
      (Str.replace (Str.chr Str.newline) " "
         (Str.replace (Str.chr Str.tab) " " (Str.strip timestamp_str))) in
  let cleaned := Str.join " " (Str.split cleaned) in
  let cleaned :=
    Str.strip_chars (Str.chr Str.squote) (Str.strip_chars (Str.chr Str.dquote) cleaned) in
  parse_datetime_shallow_exc cleaned.

(** Level 5 of the deep stack: the only level that raises. *)
Definition validate_format_deep_exc (datetime_str : PyVal) : exc datetime :=
  match datetime_str with
  | PyStr text =>
      if negb (Str.truthy text) then raise (ValueError "Empty datetime string")
      else match Strptime.strptime text with
           | inr dt => ret dt
           | inl e => raise (ValueError ("Failed to parse datetime: " +:+ e))
           end
  | _ => raise (TypeError ("Expected string, got " +:+ type_name datetime_str))
  end.

(** Level 4: text processing, nothing raised here. *)
Definition parse_datetime_deep_exc (timestamp_str : string) : exc datetime :=
  let normalized := Str.join " " (Str.split timestamp_str) in
  let cleaned :=
    Str.replace "|" " " (Str.replace ";" EmptyString (Str.replace "," EmptyString normalized)) in
  let cleaned := Str.join " " (Str.split cleaned) in
  let temp := Str.lower (Str.title cleaned) in
  let parts := Str.split temp in
  let rejoined := Str.join " " parts in
  validate_format_deep_exc (PyStr rejoined).

(** Level 3: extract the timestamp field, nothing raised here. *)
Definition parse_message_deep_exc (message : PyVal) : exc datetime :=
  let timestamp :=
    match message with
    | PyDict items => dict_get items "timestamp" (PyStr EmptyString)
    | _ => PyStr EmptyString
    end in
  let timestamp_str := if is_none timestamp then EmptyString else py_str timestamp in
  let normalized := Str.strip timestamp_str in
  let cleaned :=
    Str.replace (Str.chr Str.carriage_return) " "
      (Str.replace (Str.chr Str.newline) " "
         (Str.replace (Str.chr Str.tab) " " normalized)) in
  parse_datetime_deep_exc cleaned.

(** Level 2: field collection, nothing raised here. *)
Definition validate_message_deep_exc (message : PyVal) : exc datetime :=
  let msg_dict := match message with PyDict items => items | _ => [] end in
  let str_values := map py_str (filter (fun v => negb (is_none v)) (dict_values msg_dict)) in
  let concatenated := Str.join " " str_values in
  let processed := Str.lower (Str.upper (Str.lower (Str.strip concatenated))) in
  parse_message_deep_exc (PyDict msg_dict).

(** Level 1: top-level normalization, nothing raised here. *)
Definition process_batch_deep_exc (message : PyVal) : exc datetime :=
  let msg_str := py_str message in
  let processed := Str.replace "  " " " (Str.strip msg_str) in
  let char_count := Str.len processed in
  let normalized := Str.lower (Str.upper (Str.lower processed)) in
  validate_message_deep_exc message.

(** One turn of the loop of [run_shallow_exc]: the [try] covers the lookup
    of the message as well as the call, and [except Exception] catches
    whatever either raises. *)
Definition run_shallow_exc_case (results : Results) (test_case : PyVal) : Results :=
  match (message <- py_getitem test_case "message" ;; parse_message_shallow_exc message) with
  | inr result => count_success results
  | inl e => count_failure results (exc_name e)
  end.

Definition run_shallow_exc (test_cases : list PyVal) : Results :=
  fold_left run_shallow_exc_case test_cases initial_results.

Definition run_deep_exc_case (results : Results) (test_case : PyVal) : Results :=
  match (message <- py_getitem test_case "message" ;; process_batch_deep_exc message) with
  | inr result => count_success results
  | inl e => count_failure results (exc_name e)
  end.

Definition run_deep_exc (test_cases : list PyVal) : Results :=
  fold_left run_deep_exc_case test_cases initial_results.

End benchmark_exception.

(** ** [benchmark_tuple.py] *)

Module benchmark_tuple.

(** [Tuple[datetime | None, Exception | None]]. *)
Definition pair_result : Type := (option datetime * option PyExc)%type.

(** Level 3 of the shallow stack: the only level that originates an error. *)
Definition validate_format_shallow_tuple (datetime_str : PyVal) : pair_result :=
  match datetime_str with
  | PyStr text =>
      if negb (Str.truthy text) then (None, Some (ValueError "Empty datetime string"))
      else match Strptime.strptime text with
           | inr dt => (Some dt, None)
           | inl e => (None, Some (ValueError ("Failed to parse datetime: " +:+ e)))
           end
  | _ => (None, Some (TypeError ("Expected string, got " +:+ type_name datetime_str)))
  end.

(** Level 2: text processing, the error of the callee is forwarded by hand. *)
Definition parse_datetime_shallow_tuple (timestamp_str : string) : pair_result :=
  let normalized := Str.join " " (Str.split timestamp_str) in
  let cleaned :=
    Str.replace "|" " " (Str.replace ";" EmptyString (Str.replace "," EmptyString normalized)) in
  let cleaned := Str.join " " (Str.split cleaned) in
  let temp := Str.lower (Str.title cleaned) in
  let parts := Str.split temp in
  let rejoined := Str.join " " parts in
  let '(result, err) := validate_format_shallow_tuple (PyStr rejoined) in
  match err with
  | Some _ => (None, err)
  | None => (result, None)
  end.

(** Level 1: extract the timestamp, the error of the callee is forwarded by hand. *)
Definition parse_message_shallow_tuple (message : PyVal) : pair_result :=
  let msg_str := if negb (is_dict message) then py_str message else EmptyString in
  let timestamp :=
    match message with
    | PyDict items => dict_get items "timestamp" (PyStr EmptyString)
    | _ => PyStr EmptyString
    end in
  let timestamp_str := if is_none timestamp then EmptyString else py_str timestamp in
  let cleaned :=
    Str.replace (Str.chr Str.carriage_return) " "
      (Str.replace (Str.chr Str.newline) " "
         (Str.replace (Str.chr Str.tab) " " (Str.strip timestamp_str))) in
  let cleaned := Str.join " " (Str.split cleaned) in
  let cleaned :=
    Str.strip_chars (Str.chr Str.squote) (Str.strip_chars (Str.chr Str.dquote) cleaned) in
  let '(result, err) := parse_datetime_shallow_tuple cleaned in
  match err with
  | Some _ => (None, err)
  | None => (result, None)
  end.

(** Level 5 of the deep stack: the only level that originates an error. *)
Definition validate_format_deep_tuple (datetime_str : PyVal) : pair_result :=
  match datetime_str with
  | PyStr text =>
      if negb (Str.truthy text) then (None, Some (ValueError "Empty datetime string"))
      else match Strptime.strptime text with
           | inr dt => (Some dt, None)
           | inl e => (None, Some (ValueError ("Failed to parse datetime: " +:+ e)))
           end
  | _ => (None, Some (TypeError ("Expected string, got " +:+ type_name datetime_str)))
  end.

(** Level 4: text processing, the error of the callee is forwarded by hand. *)
Definition parse_datetime_deep_tuple (timestamp_str : string) : pair_result :=
  let normalized := Str.join " " (Str.split timestamp_str) in
  let cleaned :=
    Str.replace "|" " " (Str.replace ";" EmptyString (Str.replace "," EmptyString normalized)) in
  let cleaned := Str.join " " (Str.split cleaned) in
  let temp := Str.lower (Str.title cleaned) in
  let parts := Str.split temp in
  let rejoined := Str.join " " parts in
  let '(result, err) := validate_format_deep_tuple (PyStr rejoined) in
  match err with
  | Some _ => (None, err)
  | None => (result, None)
  end.

(** Level 3: extract the timestamp field, the error of the callee is forwarded by hand. *)
Definition parse_message_deep_tuple (message : PyVal) : pair_result :=
  let timestamp :=
    match message with
    | PyDict items => dict_get items "timestamp" (PyStr EmptyString)
    | _ => PyStr EmptyString
    end in
  let timestamp_str := if is_none timestamp then EmptyString else py_str timestamp in
  let normalized := Str.strip timestamp_str in
  let cleaned :=
    Str.replace (Str.chr Str.carriage_return) " "
      (Str.replace (Str.chr Str.newline) " "
         (Str.replace (Str.chr Str.tab) " " normalized)) in
  let '(result, err) := parse_datetime_deep_tuple cleaned in
  match err with
  | Some _ => (None, err)
  | None => (result, None)
  end.

(** Level 2: field collection, the error of the callee is forwarded by hand. *)
Definition validate_message_deep_tuple (message : PyVal) : pair_result :=
  let msg_dict := match message with PyDict items => items | _ => [] end in
  let str_values := map py_str (filter (fun v => negb (is_none v)) (dict_values msg_dict)) in
  let concatenated := Str.join " " str_values in
  let processed := Str.lower (Str.upper (Str.lower (Str.strip concatenated))) in
  let '(result, err) := parse_message_deep_tuple (PyDict msg_dict) in
  match err with
  | Some _ => (None, err)
  | None => (result, None)
  end.

(** Level 1: top-level normalization, the error of the callee is forwarded by hand. *)
Definition process_batch_deep_tuple (message : PyVal) : pair_result :=
  let msg_str := py_str message in
  let processed := Str.replace "  " " " (Str.strip msg_str) in
  let char_count := Str.len processed in
  let normalized := Str.lower (Str.upper (Str.lower processed)) in
  let '(result, err) := validate_message_deep_tuple message in
  match err with
  | Some _ => (None, err)
  | None => (result, None)
  end.

(** One turn of the loop of [run_shallow_tuple]: the lookup of the message
    stands outside any [try]. *)
Definition run_shallow_tuple_case (results : Results) (test_case : PyVal) : exc Results :=
  message <- py_getitem test_case "message" ;;
  let '(result, err) := parse_message_shallow_tuple message in
  ret (match err with
       | Some e => count_failure results (exc_name e)
       | None => count_success results
       end).

Definition run_shallow_tuple (test_cases : list PyVal) : exc Results :=
  for_each run_shallow_tuple_case test_cases initial_results.

Definition run_deep_tuple_case (results : Results) (test_case : PyVal) : exc Results :=
  message <- py_getitem test_case "message" ;;
  let '(result, err) := process_batch_deep_tuple message in
  ret (match err with
       | Some e => count_failure results (exc_name e)
       | None => count_success results
       end).

Definition run_deep_tuple (test_cases : list PyVal) : exc Results :=
  for_each run_deep_tuple_case test_cases initial_results.

End benchmark_tuple.

(** ** [benchmark_union.py] *)

Module benchmark_union.

(** [datetime | Exception]: one value, told apart by
    [isinstance(result, Exception)]. *)
Inductive union_result : Type :=
| UTimestamp (dt : datetime)
| UException (e : PyExc).

Definition is_exception (result : union_result) : bool :=
  match result with UException _ => true | UTimestamp _ => false end.

(** Level 3 of the shallow stack: the only level that originates an error. *)
Definition validate_format_shallow_union (datetime_str : PyVal) : union_result :=
  match datetime_str with
  | PyStr text =>
      if negb (Str.truthy text) then UException (ValueError "Empty datetime string")
      else match Strptime.strptime text with
           | inr dt => UTimestamp dt
           | inl e => UException (ValueError ("Failed to parse datetime: " +:+ e))
           end
  | _ => UException (TypeError ("Expected string, got " +:+ type_name datetime_str))
  end.

(** Level 2: text processing, an exception returned by the callee is returned as it is. *)
Definition parse_datetime_shallow_union (timestamp_str : string) : union_result :=
  let normalized := Str.join " " (Str.split timestamp_str) in
  let cleaned :=
    Str.replace "|" " " (Str.replace ";" EmptyString (Str.replace "," EmptyString normalized)) in
  let cleaned := Str.join " " (Str.split cleaned) in
  let temp := Str.lower (Str.title cleaned) in
  let parts := Str.split temp in
  let rejoined := Str.join " " parts in
  let result := validate_format_shallow_union (PyStr rejoined) in
  if is_exception result then result else result.

(** Level 1: extract the timestamp, an exception returned by the callee is returned as it is. *)
Definition parse_message_shallow_union (message : PyVal) : union_result :=
  let msg_str := if negb (is_dict message) then py_str message else EmptyString in
  let timestamp :=
    match message with
    | PyDict items => dict_get items "timestamp" (PyStr EmptyString)
    | _ => PyStr EmptyString
    end in
  let timestamp_str := if is_none timestamp then EmptyString else py_str timestamp in
  let cleaned :=
    Str.replace (Str.chr Str.carriage_return) " "
      (Str.replace (Str.chr Str.newline) " "
         (Str.replace (Str.chr Str.tab) " " (Str.strip timestamp_str))) in
  let cleaned := Str.join " " (Str.split cleaned) in
  let cleaned :=
    Str.strip_chars (Str.chr Str.squote) (Str.strip_chars (Str.chr Str.dquote) cleaned) in
  let result := parse_datetime_shallow_union cleaned in
  if is_exception result then result else result.

(** Level 5 of the deep stack: the only level that originates an error. *)
Definition validate_format_deep_union (datetime_str : PyVal) : union_result :=
  match datetime_str with
  | PyStr text =>
      if negb (Str.truthy text) then UException (ValueError "Empty datetime string")
      else match Strptime.strptime text with
           | inr dt => UTimestamp dt
           | inl e => UException (ValueError ("Failed to parse datetime: " +:+ e))
           end
  | _ => UException (TypeError ("Expected string, got " +:+ type_name datetime_str))
  end.

(** Level 4: text processing, an exception returned by the callee is returned as it is. *)
Definition parse_datetime_deep_union (timestamp_str : string) : union_result :=
  let normalized := Str.join " " (Str.split timestamp_str) in
  let cleaned :=
    Str.replace "|" " " (Str.replace ";" EmptyString (Str.replace "," EmptyString normalized)) in
  let cleaned := Str.join " " (Str.split cleaned) in
  let temp := Str.lower (Str.title cleaned) in
  let parts := Str.split temp in
  let rejoined := Str.join " " parts in
  let result := validate_format_deep_union (PyStr rejoined) in
  if is_exception result then result else result.

(** Level 3: extract the timestamp field, an exception returned by the callee is returned as it is. *)
Definition parse_message_deep_union (message : PyVal) : union_result :=
  let timestamp :=
    match message with
    | PyDict items => dict_get items "timestamp" (PyStr EmptyString)
    | _ => PyStr EmptyString
    end in
  let timestamp_str := if is_none timestamp then EmptyString else py_str timestamp in
  let normalized := Str.strip timestamp_str in
  let cleaned :=
    Str.replace (Str.chr Str.carriage_return) " "
      (Str.replace (Str.chr Str.newline) " "
         (Str.replace (Str.chr Str.tab) " " normalized)) in
  let result := parse_datetime_deep_union cleaned in
  if is_exception result then result else result.

(** Level 2: field collection, an exception returned by the callee is returned as it is. *)
Definition validate_message_deep_union (message : PyVal) : union_result :=
  let msg_dict := match message with PyDict items => items | _ => [] end in
  let str_values := map py_str (filter (fun v => negb (is_none v)) (dict_values msg_dict)) in
  let concatenated := Str.join " " str_values in
  let processed := Str.lower (Str.upper (Str.lower (Str.strip concatenated))) in
  let result := parse_message_deep_union (PyDict msg_dict) in
  if is_exception result then result else result.

(** Level 1: top-level normalization, an exception returned by the callee is returned as it is. *)
Definition process_batch_deep_union (message : PyVal) : union_result :=
  let msg_str := py_str message in
  let processed := Str.replace "  " " " (Str.strip msg_str) in
  let char_count := Str.len processed in
  let normalized := Str.lower (Str.upper (Str.lower processed)) in
  let result := validate_message_deep_union message in
  if is_exception result then result else result.

Definition run_shallow_union_case (results : Results) (test_case : PyVal) : exc Results :=
  message <- py_getitem test_case "message" ;;
  let result := parse_message_shallow_union message in
  ret (match result with
       | UException e => count_failure results (exc_name e)
       | UTimestamp _ => count_success results
       end).

Definition run_shallow_union (test_cases : list PyVal) : exc Results :=
  for_each run_shallow_union_case test_cases initial_results.

Definition run_deep_union_case (results : Results) (test_case : PyVal) : exc Results :=
  message <- py_getitem test_case "message" ;;
  let result := process_batch_deep_union message in
  ret (match result with
       | UException e => count_failure results (exc_name e)
       | UTimestamp _ => count_success results
       end).

Definition run_deep_union (test_cases : list PyVal) : exc Results :=
  for_each run_deep_union_case test_cases initial_results.

End benchmark_union.

(** ** [run_benchmarks.py] *)

Module run_benchmarks.

(** [a / n] for a float [a] and an int [n]. *)
Definition truediv (a : Q) (n : Z) : exc Q :=
  if (n =? 0)%Z then raise (ZeroDivisionError "float division by zero")
  else ret (a / inject_Z n)%Q.

(** One entry of [pstats.Stats.stats]: the key [(file, line, name)] and
    the counts and times [(cc, nc, tt, ct, callers)]; the callers are not
    read. *)
Record StatsEntry : Type := mk_entry {
  func : string * Z * string;
  cc : Z;
  nc : Z;
  tt : Q;
  ct : Q
}.

(** The dictionary built for each pattern. *)
Record FunctionTimes : Type := mk_times {
  ncalls : Z;
  tottime : Q;
  cumtime : Q;
  percall_tot : Q;
  percall_cum : Q
}.

Definition no_calls : FunctionTimes := mk_times 0 0 0 0 0.

(** [total / nc if nc > 0 else 0]. *)
Definition percall (total : Q) (nc : Z) : exc Q :=
  if (0 <? nc)%Z then truediv total nc else ret 0%Q.

(** The body of the loop over [stats.stats.items()]: the first pattern
    found in the function name gets the entry, then [break]. *)
Definition record_entry (func_patterns : list string)
    (function_times : gmap string FunctionTimes) (entry : StatsEntry)
    : exc (gmap string FunctionTimes) :=
  let func_name := snd (func entry) in
  match find (fun pattern => Str.contains pattern func_name) func_patterns with
  | Some pattern =>
      per_tot <- percall (tt entry) (nc entry) ;;
      per_cum <- percall (ct entry) (nc entry) ;;
      ret (<[pattern := mk_times (nc entry) (tt entry) (ct entry) per_tot per_cum]>
             function_times)
  | None => ret function_times
  end.

Definition extract_function_stats (stats : list StatsEntry) (func_patterns : list string)
    : exc (gmap string FunctionTimes) :=
  let function_times :=
    fold_left (fun times func_pattern => <[func_pattern := no_calls]> times)
              func_patterns (∅ : gmap string FunctionTimes) in
  for_each (record_entry func_patterns) stats function_times.

(** [(total_time / 1000) * 1000000], as written in [save_results_json],
    [save_results_text], [print_benchmark_result] and
    [run_all_benchmarks]. *)
Definition us_per_test (total_time : Q) : Q := ((total_time / 1000) * 1000000)%Q.

(** What [profile_function] returns, as far as it is read afterwards: the
    tallies of the runner, the elapsed time and the profiler's table. *)
Record ProfileData : Type := mk_profile {
  result : Results;
  total_time : Q;
  stats : list StatsEntry
}.

(** One element of the list written by [save_results_json]. *)
Record BenchData : Type := mk_bench {
  bench_name : string;
  bench_total_time : Q;
  bench_success : Z;
  bench_failures : Z;
  bench_us_per_test : Q;
  bench_function_stats : gmap string FunctionTimes
}.

Definition bench_data (name : string) (patterns : list string) (profile_data : ProfileData)
    : exc BenchData :=
  function_stats <- extract_function_stats (stats profile_data) patterns ;;
  ret (mk_bench name (total_time profile_data)
         (success (result profile_data)) (failure (result profile_data))
         (us_per_test (total_time profile_data)) function_stats).

End run_benchmarks.

Import benchmark_exception benchmark_tuple benchmark_union run_benchmarks.

(** ** How a runner reads a result *)

(** What one case contributes to the tallies: a success, or a failure with
    the name of the exception class. *)
Inductive Classification : Type :=
| Success
| Failure (kind : string).

(** [try: ... except Exception as e:] *)
Definition classify_exc (r : exc datetime) : Classification :=
  match r with
  | inr _ => Success
  | inl e => Failure (exc_name e)
  end.

(** [if err is not None:] *)
Definition classify_tuple (p : pair_result) : Classification :=
  match snd p with
  | Some e => Failure (exc_name e)
  | None => Success
  end.

(** [if isinstance(result, Exception):] *)
Definition classify_union (u : union_result) : Classification :=
  match u with
  | UException e => Failure (exc_name e)
  | UTimestamp _ => Success
  end.

Definition tally (results : Results) (c : Classification) : Results :=
  match c with
  | Success => count_success results
  | Failure kind => count_failure results kind
  end.

(** The pair and the union that say what a raising function says. *)
Definition to_pair (r : exc datetime) : pair_result :=
  match r with
  | inr dt => (Some dt, None)
  | inl e => (None, Some e)
  end.

Definition to_union (r : exc datetime) : union_result :=
  match r with
  | inr dt => UTimestamp dt
  | inl e => UException e
  end.

(** Exactly one slot of a pair is populated. *)
Definition exactly_one_slot (p : pair_result) : Prop :=
  (exists dt, p = (Some dt, None)) \/ (exists e, p = (None, Some e)).

(** A test case that has a message. *)
Definition has_message (test_case : PyVal) : Prop :=
  exists message, py_getitem test_case "message" = inr message.

(** ** Values the properties are stated with *)

(** The number of cases a runner has tallied. *)
Definition cases_tallied (results : Results) : Z := success results + failure results.

(** The timestamp 2024-01-15T10:30:45. *)
Definition timestamp_2024_01_15 : datetime := mk_datetime 2024 1 15 10 30 45.

Definition message_with_int_timestamp : PyVal := PyDict [("timestamp", PyInt 123456)].

Definition message_with_quoted_timestamp : PyVal :=
  PyDict [("timestamp",
           PyStr (String Str.dquote ("2024-01-15 10:30:45" +:+ Str.chr Str.dquote)))].

(** The exception raised on an empty text. *)
Definition empty_complaint : PyExc := ValueError "Empty datetime string".

(** What an entry of the extracted statistics satisfies. *)
Definition percall_consistent (times : FunctionTimes) : Prop :=
  (ncalls times = 0%Z -> percall_tot times = 0%Q /\ percall_cum times = 0%Q) /\
  ((0 < ncalls times)%Z ->
   percall_tot times = (tottime times / inject_Z (ncalls times))%Q /\
   percall_cum times = (cumtime times / inject_Z (ncalls times))%Q).

(** A batch of two cases and a run over it that took one second. *)
Definition two_cases : list PyVal :=
  [PyDict [("id", PyInt 0); ("message", message_with_int_timestamp)];
   PyDict [("id", PyInt 1); ("message", PyNone)]].

Definition one_second_on_two_cases : ProfileData :=
  mk_profile (run_shallow_exc two_cases) 1 [].

(** A batch whose second record has no message. *)
Definition case_before : PyVal :=
  PyDict [("id", PyInt 0); ("message", PyDict [("timestamp", PyStr "2024-01-15 10:30:45")])].

Definition record_without_message : list (string * PyVal) :=
  [("id", PyInt 1); ("expected_valid", PyBool false)].

Definition case_after : PyVal := PyDict [("id", PyInt 2); ("message", PyStr "not a dict")].

Definition batch_with_gap : list PyVal :=
  [case_before] ++ PyDict record_without_message :: [case_after].

(** A maximal run of non-whitespace: what [split] returns. *)
Fixpoint no_space (w : string) : bool :=
  match w with
  | EmptyString => true
  | String c w' => negb (Str.isspace c) && no_space w'
  end.

Definition is_word (w : string) : Prop := Str.truthy w = true /\ no_space w = true.

(** [' '.join(s.split())]. *)
Definition squeeze (s : string) : string := Str.join " " (Str.split s).

(** The text both depths extract from a message. *)
Definition extracted_text (message : PyVal) : string :=
  let timestamp :=
    match message with
    | PyDict items => dict_get items "timestamp" (PyStr EmptyString)
    | _ => PyStr EmptyString
    end in
  let timestamp_str := if is_none timestamp then EmptyString else py_str timestamp in
  Str.replace (Str.chr Str.carriage_return) " "
    (Str.replace (Str.chr Str.newline) " "
       (Str.replace (Str.chr Str.tab) " " (Str.strip timestamp_str))).

(** The two [strip] calls of the shallow extraction. *)
Definition strip_quotes (s : string) : string :=
  Str.strip_chars (Str.chr Str.squote) (Str.strip_chars (Str.chr Str.dquote) s).

(** A classification a pipeline can give: a success, or a ValueError. *)
Definition success_or_value_error (c : Classification) : Prop :=
  c = Success \/ c = Failure "ValueError".

(** A text of whitespace only. *)
Fixpoint all_space (s : string) : bool :=
  match s with
  | EmptyString => true
  | String c s' => Str.isspace c && all_space s'
  end.

(** A timestamp field that holds nothing to parse: absent, [None], or a text
    of whitespace only. *)
Definition blank_timestamp (items : list (string * PyVal)) : Prop :=
  dict_lookup items "timestamp" = None \/
  dict_lookup items "timestamp" = Some PyNone \/
  exists s, dict_lookup items "timestamp" = Some (PyStr s) /\ all_space s = true.



(** The names an exception of the message lookup or of a pipeline can have. *)
Definition lookup_or_value_error (name : string) : Prop :=
  name = "ValueError" \/ name = "KeyError" \/ name = "TypeError".

(** One name recorded per failure. *)
Definition one_name_per_failure (results : Results) : Prop :=
  Z.of_nat (length (errors results)) = failure results.

(** A timestamp text padded and spaced out with blanks. *)
Definition message_with_spaced_timestamp : PyVal :=
  PyDict [("timestamp", PyStr "  2024-01-15    10:30:45 "); ("user", PyStr "user_3")].

(** What one turn of a runner's loop does to the tallies: one more
    success, or one more failure under an allowed name. *)
Definition counted_as (allowed : string -> Prop) (s s' : Results) : Prop :=
  s' = count_success s \/ exists name, allowed name /\ s' = count_failure s name.

(** What [extract_function_stats] writes for a row of the profiler. *)
Definition recorded (entry : StatsEntry) : FunctionTimes :=
  mk_times (nc entry) (tt entry) (ct entry)
    (if (0 <? nc entry)%Z then (tt entry / inject_Z (nc entry))%Q else 0%Q)
    (if (0 <? nc entry)%Z then (ct entry / inject_Z (nc entry))%Q else 0%Q).

(** The pattern a row is booked under: the first one found in its function
    name. *)
Definition first_match (func_patterns : list string) (entry : StatsEntry) : option string :=
  find (fun pattern => Str.contains pattern (snd (func entry))) func_patterns.

(** One turn of the loop over the profiler's rows, as a map update. *)
Definition book (func_patterns : list string)
    (times : gmap string FunctionTimes) (entry : StatsEntry) : gmap string FunctionTimes :=
  match first_match func_patterns entry with
  | Some pattern => <[pattern := recorded entry]> times
  | None => times
  end.

(** The dictionary before the loop: every pattern at zero. *)
Definition zeroed (func_patterns : list string) : gmap string FunctionTimes :=
  fold_left (fun acc func_pattern => <[func_pattern := no_calls]> acc)
            func_patterns (∅ : gmap string FunctionTimes).

(** [a / b] for two floats. *)
Definition truediv_float (a b : Q) : exc Q :=
  if Qeq_bool b 0 then raise (ZeroDivisionError "float division by zero")
  else ret (a / b)%Q.

(** [results[name]]. *)
Definition results_getitem (results : gmap string ProfileData) (name : string)
    : exc ProfileData :=
  match results !! name with
  | Some profile_data => ret profile_data
  | None => raise (KeyError name)
  end.

(** A line of the comparison table. *)
Record ComparisonRow : Type := mk_row {
  row_impl : string;
  row_stack : string;
  row_total_time : Q;
  row_us_per_test : Q;
  row_speedup : Q
}.

(** [comparison_data]: the six runs, each with the baseline of its depth. *)
Definition comparison_data (results : gmap string ProfileData)
    : exc (list (string * string * ProfileData * Q)) :=
  exc_shallow <- results_getitem results "Exception Handling - Shallow Stack" ;;
  let baseline_shallow := total_time exc_shallow in
  exc_deep <- results_getitem results "Exception Handling - Deep Stack" ;;
  let baseline_deep := total_time exc_deep in
  d1 <- results_getitem results "Exception Handling - Shallow Stack" ;;
  d2 <- results_getitem results "Exception Handling - Deep Stack" ;;
  d3 <- results_getitem results "Union Error (Result | Exception) - Shallow Stack" ;;
  d4 <- results_getitem results "Union Error (Result | Exception) - Deep Stack" ;;
  d5 <- results_getitem results "Tuple Error (Result, Error) - Shallow Stack" ;;
  d6 <- results_getitem results "Tuple Error (Result, Error) - Deep Stack" ;;
  ret [("Exception Handling", "Shallow", d1, baseline_shallow);
       ("Exception Handling", "Deep", d2, baseline_deep);
       ("Union (Result | Exception)", "Shallow", d3, baseline_shallow);
       ("Union (Result | Exception)", "Deep", d4, baseline_deep);
       ("Tuple (Result, Error)", "Shallow", d5, baseline_shallow);
       ("Tuple (Result, Error)", "Deep", d6, baseline_deep)].

(** The loop over [comparison_data]: a line is written as soon as it is
    computed, so the lines before a failing one are out when the exception
    leaves the loop. *)
Fixpoint comparison_rows (data : list (string * string * ProfileData * Q))
    : list ComparisonRow * option PyExc :=
  match data with
  | [] => ([], None)
  | (impl, stack, profile_data, baseline) :: rest =>
      let total_time := total_time profile_data in
      let us_per_test := ((total_time / 1000) * 1000000)%Q in
      match truediv_float baseline total_time with
      | inl e => ([], Some e)
      | inr speedup =>
          let '(rows, e) := comparison_rows rest in
          (mk_row impl stack total_time us_per_test speedup :: rows, e)
      end
  end.

(** The comparison table of [run_all_benchmarks] and [save_results_text]:
    the lines written and the exception that stopped it, if any. *)
Definition comparison_table (results : gmap string ProfileData)
    : list ComparisonRow * option PyExc :=
  match comparison_data results with
  | inl e => ([], Some e)
  | inr data => comparison_rows data
  end.

(** The six runs are in the table of results. *)
Definition six_runs (results : gmap string ProfileData)
    (exc_shallow exc_deep union_shallow union_deep tuple_shallow tuple_deep : ProfileData)
    : Prop :=
  results !! "Exception Handling - Shallow Stack" = Some exc_shallow /\
  results !! "Exception Handling - Deep Stack" = Some exc_deep /\
  results !! "Union Error (Result | Exception) - Shallow Stack" = Some union_shallow /\
  results !! "Union Error (Result | Exception) - Deep Stack" = Some union_deep /\
  results !! "Tuple Error (Result, Error) - Shallow Stack" = Some tuple_shallow /\
  results !! "Tuple Error (Result, Error) - Deep Stack" = Some tuple_deep.

(** A small table of the profiler: two rows of one function name, from two
    files, and a row of another function. *)
Definition first_row : StatsEntry :=
  mk_entry ("benchmark_exception.py", 14%Z, "validate_format_shallow_exc") 4 4 (1 # 100) (3 # 100).

Definition second_row : StatsEntry :=
  mk_entry ("other.py", 7%Z, "validate_format_shallow_exc") 2 2 (1 # 50) (1 # 20).

Definition third_row : StatsEntry :=
  mk_entry ("benchmark_exception.py", 53%Z, "parse_message_shallow_exc") 4 4 (1 # 10) (1 # 5).

Definition shallow_exc_patterns : list string :=
  ["validate_format_shallow_exc"; "parse_datetime_shallow_exc"; "parse_message_shallow_exc"].

(** Six runs, and six runs of which one took no measurable time. *)
Definition run_taking (seconds : Q) : ProfileData := mk_profile initial_results seconds [].

Definition results_of (exc_shallow exc_deep union_shallow union_deep tuple_shallow tuple_deep : Q)
    : gmap string ProfileData :=
  <["Tuple Error (Result, Error) - Deep Stack" := run_taking tuple_deep]>
  (<["Tuple Error (Result, Error) - Shallow Stack" := run_taking tuple_shallow]>
  (<["Union Error (Result | Exception) - Deep Stack" := run_taking union_deep]>
  (<["Union Error (Result | Exception) - Shallow Stack" := run_taking union_shallow]>
  (<["Exception Handling - Deep Stack" := run_taking exc_deep]>
  (<["Exception Handling - Shallow Stack" := run_taking exc_shallow]> ∅))))).

(** Truth value of a Python value; a float is zero when it prints as 0.0 or
    -0.0. *)
Definition py_truthy (v : PyVal) : bool :=
  match v with
  | PyNone => false
  | PyBool b => b
  | PyInt n => negb (n =? 0)%Z
  | PyFloat text => negb (String.eqb text "0.0" || String.eqb text "-0.0")
  | PyStr s => Str.truthy s
  | PyList items => match items with [] => false | _ :: _ => true end
  | PyDict items => match items with [] => false | _ :: _ => true end
  end.

(** ** [test_generator.py] *)

Module test_generator.

Definition valid_datetimes : list string :=
  ["2024-01-15 10:30:45"; "2023-12-31 23:59:59"; "2024-06-15 14:22:33";
   "2024-03-10 08:15:00"; "2024-09-20 17:45:12"; "2024-11-05 12:00:00";
   "2024-02-29 09:30:15"; "2024-07-04 16:20:55"; "2024-05-01 11:11:11";
   "2024-08-18 19:45:30"].

Definition invalid_formats : list string :=
  ["2024/01/15 10:30:45"; "15-01-2024 10:30:45"; "2024-13-01 10:30:45";
   "2024-01-32 10:30:45"; "2024-01-15 25:30:45"; "2024-01-15 10:70:45";
   "2024-01-15 10:30:70"; "not-a-datetime"; "2024-01-15"; "10:30:45";
   "2024-1-5 10:30:45"; "24-01-15 10:30:45"; EmptyString; "2024-02-30 10:30:45";
   "abcd-ef-gh ij:kl:mn"].

Definition invalid_types : list PyVal :=
  [PyInt 123456; PyFloat "12345.67"; PyBool true; PyBool false;
   PyList [PyStr "2024-01-15"; PyStr "10:30:45"];
   PyDict [("date", PyStr "2024-01-15"); ("time", PyStr "10:30:45")];
   PyNone].

Definition malformed_messages : list PyVal :=
  [PyNone; PyStr "not a dict"; PyInt 123;
   PyList [PyStr "list"; PyStr "of"; PyStr "items"]; PyFloat "12.34"].

(** [random.choice(seq)] on a drawn number: the sequences drawn from are
    the four literals above, none empty, so [default] is never returned. *)
Definition choice {A : Type} (draw : nat) (seq : list A) (default : A) : A :=
  nth (draw mod length seq) seq default.

(** [f"user_{i}"] and [f"message content {i}"]. *)
Definition user (i : nat) : string := "user_" +:+ Repr.str_int (Z.of_nat i).
Definition content (i : nat) : string := "message content " +:+ Repr.str_int (Z.of_nat i).

Section Randomness.

(** The random source: the number drawn for case [i], and the shuffle, which
    rearranges the list it is given. *)
Variable draws : nat -> nat.
Variable shuffle : list (list (string * PyVal)) -> list (list (string * PyVal)).

Definition valid_case (i : nat) : list (string * PyVal) :=
  let dt := choice (draws i) valid_datetimes EmptyString in
  [("id", PyInt (Z.of_nat i));
   ("message", PyDict [("timestamp", PyStr dt); ("user", PyStr (user i));
                       ("data", PyStr (content i))]);
   ("expected_valid", PyBool true)].

Definition missing_field_case (i : nat) : list (string * PyVal) :=
  [("id", PyInt (Z.of_nat i));
   ("message", PyDict [("user", PyStr (user i)); ("data", PyStr (content i))]);
   ("expected_valid", PyBool false);
   ("error_type", PyStr "missing_field")].

Definition invalid_format_case (i : nat) : list (string * PyVal) :=
  let dt := choice (draws i) invalid_formats EmptyString in
  [("id", PyInt (Z.of_nat i));
   ("message", PyDict [("timestamp", PyStr dt); ("user", PyStr (user i));
                       ("data", PyStr (content i))]);
   ("expected_valid", PyBool false);
   ("error_type", PyStr "invalid_format")].

Definition type_error_case (i : nat) : list (string * PyVal) :=
  let dt := choice (draws i) invalid_types PyNone in
  [("id", PyInt (Z.of_nat i));
   ("message", PyDict [("timestamp", dt); ("user", PyStr (user i));
                       ("data", PyStr (content i))]);
   ("expected_valid", PyBool false);
   ("error_type", PyStr "type_error")].

Definition malformed_case (i : nat) : list (string * PyVal) :=
  let malformed := choice (draws i) malformed_messages PyNone in
  [("id", PyInt (Z.of_nat i));
   ("message", malformed);
   ("expected_valid", PyBool false);
   ("error_type", PyStr "malformed_message")].

(** The list before [random.shuffle]. *)
Definition cases_in_order : list (list (string * PyVal)) :=
  map valid_case (seq 0 200) ++
  map missing_field_case (seq 200 200) ++
  map invalid_format_case (seq 400 200) ++
  map type_error_case (seq 600 200) ++
  map malformed_case (seq 800 200).

Definition generate_test_cases : list (list (string * PyVal)) :=
  shuffle cases_in_order.

End Randomness.

(** [sum(1 for tc in test_cases if tc.get("expected_valid", False))]. *)
Definition valid_count (test_cases : list (list (string * PyVal))) : Z :=
  fold_left Z.add
    (map (fun _ => 1%Z)
       (List.filter (fun tc => py_truthy (dict_get tc "expected_valid" (PyBool false)))
                    test_cases))
    0%Z.

(** [len(test_cases) - valid_count]. *)
Definition error_count (test_cases : list (list (string * PyVal))) : Z :=
  Z.of_nat (length test_cases) - valid_count test_cases.

End test_generator.

(** What [json.load] gives back for the file the generator wrote: the
    records as dictionaries. *)
Definition loaded (test_cases : list (list (string * PyVal))) : list PyVal :=
  map PyDict test_cases.

(** A shuffle rearranges. *)
Definition rearranges (shuffle : list (list (string * PyVal)) -> list (list (string * PyVal)))
    : Prop :=
  forall l, Permutation l (shuffle l).

(** The timestamp payload of a message, if it is a mapping that has one. *)
Definition timestamp_of (message : PyVal) : option PyVal :=
  match message with
  | PyDict items => dict_lookup items "timestamp"
  | _ => None
  end.

(** The entry of [invalid_formats] with a one-digit month and day, which
    [strptime] accepts. *)
Definition one_digit_text : string := "2024-1-5 10:30:45".

Definition has_one_digit_text (message : PyVal) : bool :=
  match timestamp_of message with
  | Some (PyStr s) => String.eqb s one_digit_text
  | _ => false
  end.

(** The number of [invalid_format] cases that drew that entry, the eleventh
    of fifteen. *)
Definition one_digit_draws (draws : nat -> nat) : Z :=
  Z.of_nat (length (List.filter (fun i => (draws i mod 15 =? 10)%nat) (seq 400 200))).

Definition is_success (c : Classification) : bool :=
  match c with Success => true | Failure _ => false end.

(** A test case the Raising runner of a depth counts as a success. *)
Definition succeeds_shallow (test_case : PyVal) : bool :=
  match (message <- py_getitem test_case "message" ;; parse_message_shallow_exc message) with
  | inr _ => true
  | inl _ => false
  end.

Definition succeeds_deep (test_case : PyVal) : bool :=
  match (message <- py_getitem test_case "message" ;; process_batch_deep_exc message) with
  | inr _ => true
  | inl _ => false
  end.

(** What the label and the payload of a generated case say of its outcome. *)
Definition expected_outcome (test_case : list (string * PyVal)) : Classification :=
  if py_truthy (dict_get test_case "expected_valid" (PyBool false))
     || has_one_digit_text (dict_get test_case "message" PyNone)
  then Success else Failure "ValueError".

(** The Raising pipelines give a generated case the outcome its label and
    payload announce, at both depths. *)
Definition as_expected (test_case : list (string * PyVal)) : Prop :=
  classify_exc (parse_message_shallow_exc (dict_get test_case "message" PyNone))
    = expected_outcome test_case /\
  classify_exc (process_batch_deep_exc (dict_get test_case "message" PyNone))
    = expected_outcome test_case.

(** A record with a message field. *)
Definition has_message_field (test_case : list (string * PyVal)) : Prop :=
  exists message, dict_lookup test_case "message" = Some message.

(** * Properties *)

(** ** The three idioms compute the same thing *)

Section Forwarding.

Lemma forward_pair (r : exc datetime) :
  (let '(result, err) := to_pair r in
   match err with
   | Some _ => (None, err)
   | None => (result, None)
   end) = to_pair r.
Proof. destruct r; reflexivity. Qed.

Lemma forward_union (r : exc datetime) :
  (let result := to_union r in if is_exception result then result else result)
  = to_union r.
Proof. destruct r; reflexivity. Qed.

End Forwarding.

Ltac by_layer f g lower forward :=
  intros; unfold f, g; cbv zeta; rewrite lower; apply forward.

Lemma validate_format_shallow_tuple_exc (v : PyVal) :
  validate_format_shallow_tuple v = to_pair (validate_format_shallow_exc v).
Proof.
  destruct v as [| | | | text | |]; try reflexivity.
  simpl. destruct (Str.truthy text); simpl; [|reflexivity].
  destruct (Strptime.strptime text); reflexivity.
Qed.

Lemma validate_format_deep_tuple_exc (v : PyVal) :
  validate_format_deep_tuple v = to_pair (validate_format_deep_exc v).
Proof.
  destruct v as [| | | | text | |]; try reflexivity.
  simpl. destruct (Str.truthy text); simpl; [|reflexivity].
  destruct (Strptime.strptime text); reflexivity.
Qed.

Lemma validate_format_shallow_union_exc (v : PyVal) :
  validate_format_shallow_union v = to_union (validate_format_shallow_exc v).
Proof.
  destruct v as [| | | | text | |]; try reflexivity.
  simpl. destruct (Str.truthy text); simpl; [|reflexivity].
  destruct (Strptime.strptime text); reflexivity.
Qed.

Lemma validate_format_deep_union_exc (v : PyVal) :
  validate_format_deep_union v = to_union (validate_format_deep_exc v).
Proof.
  destruct v as [| | | | text | |]; try reflexivity.
  simpl. destruct (Str.truthy text); simpl; [|reflexivity].
  destruct (Strptime.strptime text); reflexivity.
Qed.

Lemma parse_datetime_shallow_tuple_exc (s : string) :
  parse_datetime_shallow_tuple s = to_pair (parse_datetime_shallow_exc s).
Proof. by_layer parse_datetime_shallow_tuple parse_datetime_shallow_exc validate_format_shallow_tuple_exc forward_pair. Qed.

Lemma parse_message_shallow_tuple_exc (m : PyVal) :
  parse_message_shallow_tuple m = to_pair (parse_message_shallow_exc m).
Proof. by_layer parse_message_shallow_tuple parse_message_shallow_exc parse_datetime_shallow_tuple_exc forward_pair. Qed.

Lemma parse_datetime_deep_tuple_exc (s : string) :
  parse_datetime_deep_tuple s = to_pair (parse_datetime_deep_exc s).
Proof. by_layer parse_datetime_deep_tuple parse_datetime_deep_exc validate_format_deep_tuple_exc forward_pair. Qed.

Lemma parse_message_deep_tuple_exc (m : PyVal) :
  parse_message_deep_tuple m = to_pair (parse_message_deep_exc m).
Proof. by_layer parse_message_deep_tuple parse_message_deep_exc parse_datetime_deep_tuple_exc forward_pair. Qed.

Lemma validate_message_deep_tuple_exc (m : PyVal) :
  validate_message_deep_tuple m = to_pair (validate_message_deep_exc m).
Proof. by_layer validate_message_deep_tuple validate_message_deep_exc parse_message_deep_tuple_exc forward_pair. Qed.

Lemma process_batch_deep_tuple_exc (m : PyVal) :
  process_batch_deep_tuple m = to_pair (process_batch_deep_exc m).
Proof. by_layer process_batch_deep_tuple process_batch_deep_exc validate_message_deep_tuple_exc forward_pair. Qed.

Lemma parse_datetime_shallow_union_exc (s : string) :
  parse_datetime_shallow_union s = to_union (parse_datetime_shallow_exc s).
Proof. by_layer parse_datetime_shallow_union parse_datetime_shallow_exc validate_format_shallow_union_exc forward_union. Qed.

Lemma parse_message_shallow_union_exc (m : PyVal) :
  parse_message_shallow_union m = to_union (parse_message_shallow_exc m).
Proof. by_layer parse_message_shallow_union parse_message_shallow_exc parse_datetime_shallow_union_exc forward_union. Qed.

Lemma parse_datetime_deep_union_exc (s : string) :
  parse_datetime_deep_union s = to_union (parse_datetime_deep_exc s).
Proof. by_layer parse_datetime_deep_union parse_datetime_deep_exc validate_format_deep_union_exc forward_union. Qed.

Lemma parse_message_deep_union_exc (m : PyVal) :
  parse_message_deep_union m = to_union (parse_message_deep_exc m).
Proof. by_layer parse_message_deep_union parse_message_deep_exc parse_datetime_deep_union_exc forward_union. Qed.

Lemma validate_message_deep_union_exc (m : PyVal) :
  validate_message_deep_union m = to_union (validate_message_deep_exc m).
Proof. by_layer validate_message_deep_union validate_message_deep_exc parse_message_deep_union_exc forward_union. Qed.

Lemma process_batch_deep_union_exc (m : PyVal) :
  process_batch_deep_union m = to_union (process_batch_deep_exc m).
Proof. by_layer process_batch_deep_union process_batch_deep_exc validate_message_deep_union_exc forward_union. Qed.

Lemma classify_to_pair (r : exc datetime) : classify_tuple (to_pair r) = classify_exc r.
Proof. destruct r; reflexivity. Qed.

Lemma classify_to_union (r : exc datetime) : classify_union (to_union r) = classify_exc r.
Proof. destruct r; reflexivity. Qed.

(** C2.  For every message, the Raising, Paired-Return and Tagged-Union
    entry points of the same depth are classified alike by their runners:
    all three succeed, or all three fail with an exception of the same
    class. *)
Theorem strategies_classify_alike (message : PyVal) :
  classify_tuple (parse_message_shallow_tuple message)
    = classify_exc (parse_message_shallow_exc message) /\
  classify_union (parse_message_shallow_union message)
    = classify_exc (parse_message_shallow_exc message) /\
  classify_tuple (process_batch_deep_tuple message)
    = classify_exc (process_batch_deep_exc message) /\
  classify_union (process_batch_deep_union message)
    = classify_exc (process_batch_deep_exc message).
Proof.
  rewrite parse_message_shallow_tuple_exc, parse_message_shallow_union_exc.
  rewrite process_batch_deep_tuple_exc, process_batch_deep_union_exc.
  rewrite !classify_to_pair, !classify_to_union.
  repeat split.
Qed.

(** ** The runners *)

Section Runners.

Variables (results : Results) (test_case message : PyVal).
Hypothesis Hmessage : py_getitem test_case "message" = inr message.

Lemma run_shallow_exc_case_tally :
  run_shallow_exc_case results test_case
  = tally results (classify_exc (parse_message_shallow_exc message)).
Proof.
  unfold run_shallow_exc_case. rewrite Hmessage. unfold bind, ret.
  destruct (parse_message_shallow_exc message); reflexivity.
Qed.

Lemma run_deep_exc_case_tally :
  run_deep_exc_case results test_case
  = tally results (classify_exc (process_batch_deep_exc message)).
Proof.
  unfold run_deep_exc_case. rewrite Hmessage. unfold bind, ret.
  destruct (process_batch_deep_exc message); reflexivity.
Qed.

Lemma run_shallow_tuple_case_tally :
  run_shallow_tuple_case results test_case
  = inr (tally results (classify_tuple (parse_message_shallow_tuple message))).
Proof.
  unfold run_shallow_tuple_case. rewrite Hmessage. unfold bind, ret.
  destruct (parse_message_shallow_tuple message) as [result [e|]]; reflexivity.
Qed.

Lemma run_deep_tuple_case_tally :
  run_deep_tuple_case results test_case
  = inr (tally results (classify_tuple (process_batch_deep_tuple message))).
Proof.
  unfold run_deep_tuple_case. rewrite Hmessage. unfold bind, ret.
  destruct (process_batch_deep_tuple message) as [result [e|]]; reflexivity.
Qed.

Lemma run_shallow_union_case_tally :
  run_shallow_union_case results test_case
  = inr (tally results (classify_union (parse_message_shallow_union message))).
Proof.
  unfold run_shallow_union_case. rewrite Hmessage. unfold bind, ret.
  destruct (parse_message_shallow_union message); reflexivity.
Qed.

Lemma run_deep_union_case_tally :
  run_deep_union_case results test_case
  = inr (tally results (classify_union (process_batch_deep_union message))).
Proof.
  unfold run_deep_union_case. rewrite Hmessage. unfold bind, ret.
  destruct (process_batch_deep_union message); reflexivity.
Qed.

End Runners.

(** A loop whose body never lets an exception escape is a fold. *)
Lemma for_each_total {S X : Type} (body : S -> X -> exc S) (step : S -> X -> S)
    (xs : list X) :
  Forall (fun x => forall s, body s x = inr (step s x)) xs ->
  forall s, for_each body xs s = inr (fold_left step xs s).
Proof.
  induction 1 as [|x xs Hx _ IH]; intros s; simpl; [reflexivity|].
  rewrite Hx. simpl. apply IH.
Qed.

Ltac same_case tuple_or_union_tally exc_tally agree classify_agree :=
  let tc := fresh "tc" in
  let m := fresh "m" in
  let Hm := fresh "Hm" in
  let s := fresh "s" in
  intros tc [m Hm] s;
  rewrite (tuple_or_union_tally s tc m Hm), (exc_tally s tc m Hm), agree, classify_agree;
  reflexivity.

(** On a batch whose cases all have a message, the three runners of a depth
    return the same tallies and the same list of error names. *)
Lemma runners_agree (test_cases : list PyVal) :
  Forall has_message test_cases ->
  run_shallow_tuple test_cases = inr (run_shallow_exc test_cases) /\
  run_shallow_union test_cases = inr (run_shallow_exc test_cases) /\
  run_deep_tuple test_cases = inr (run_deep_exc test_cases) /\
  run_deep_union test_cases = inr (run_deep_exc test_cases).
Proof.
  intros Hall. repeat split; apply for_each_total;
    (eapply Forall_impl; [exact Hall|]).
  - same_case run_shallow_tuple_case_tally run_shallow_exc_case_tally
              parse_message_shallow_tuple_exc classify_to_pair.
  - same_case run_shallow_union_case_tally run_shallow_exc_case_tally
              parse_message_shallow_union_exc classify_to_union.
  - same_case run_deep_tuple_case_tally run_deep_exc_case_tally
              process_batch_deep_tuple_exc classify_to_pair.
  - same_case run_deep_union_case_tally run_deep_exc_case_tally
              process_batch_deep_union_exc classify_to_union.
Qed.

(** ** Shape of the pairs *)

Lemma to_pair_exactly_one_slot (r : exc datetime) : exactly_one_slot (to_pair r).
Proof. destruct r as [e|dt]; [right; exists e | left; exists dt]; reflexivity. Qed.

(** C7.  Every function of the Paired-Return strategy returns a pair with
    exactly one populated slot: a timestamp and no error, or no value and an
    exception; never both and never neither. *)
Theorem paired_return_exactly_one_slot :
  (forall datetime_str, exactly_one_slot (validate_format_shallow_tuple datetime_str)) /\
  (forall timestamp_str, exactly_one_slot (parse_datetime_shallow_tuple timestamp_str)) /\
  (forall message, exactly_one_slot (parse_message_shallow_tuple message)) /\
  (forall datetime_str, exactly_one_slot (validate_format_deep_tuple datetime_str)) /\
  (forall timestamp_str, exactly_one_slot (parse_datetime_deep_tuple timestamp_str)) /\
  (forall message, exactly_one_slot (parse_message_deep_tuple message)) /\
  (forall message, exactly_one_slot (validate_message_deep_tuple message)) /\
  (forall message, exactly_one_slot (process_batch_deep_tuple message)).
Proof.
  repeat split; intros x.
  - rewrite validate_format_shallow_tuple_exc. apply to_pair_exactly_one_slot.
  - rewrite parse_datetime_shallow_tuple_exc. apply to_pair_exactly_one_slot.
  - rewrite parse_message_shallow_tuple_exc. apply to_pair_exactly_one_slot.
  - rewrite validate_format_deep_tuple_exc. apply to_pair_exactly_one_slot.
  - rewrite parse_datetime_deep_tuple_exc. apply to_pair_exactly_one_slot.
  - rewrite parse_message_deep_tuple_exc. apply to_pair_exactly_one_slot.
  - rewrite validate_message_deep_tuple_exc. apply to_pair_exactly_one_slot.
  - rewrite process_batch_deep_tuple_exc. apply to_pair_exactly_one_slot.
Qed.

(** ** Every case is tallied once *)

Lemma cases_tallied_success (results : Results) :
  cases_tallied (count_success results) = (cases_tallied results + 1)%Z.
Proof. unfold cases_tallied, count_success; cbn [success failure]. lia. Qed.

Lemma cases_tallied_failure (results : Results) (name : string) :
  cases_tallied (count_failure results name) = (cases_tallied results + 1)%Z.
Proof. unfold cases_tallied, count_failure; cbn [success failure]. lia. Qed.

Section Counting.

Context {X : Type}.

Lemma fold_left_tallied (step : Results -> X -> Results) :
  (forall s x, cases_tallied (step s x) = (cases_tallied s + 1)%Z) ->
  forall xs s,
    cases_tallied (fold_left step xs s) = (cases_tallied s + Z.of_nat (length xs))%Z.
Proof.
  intros Hstep xs. induction xs as [|x xs IH]; intros s; cbn [fold_left length].
  - lia.
  - rewrite IH, Hstep. lia.
Qed.

Lemma for_each_tallied (body : Results -> X -> exc Results) :
  (forall s x s', body s x = inr s' -> cases_tallied s' = (cases_tallied s + 1)%Z) ->
  forall xs s s',
    for_each body xs s = inr s' ->
    cases_tallied s' = (cases_tallied s + Z.of_nat (length xs))%Z.
Proof.
  intros Hbody xs. induction xs as [|x xs IH]; intros s s'; cbn [for_each length].
  - intros [= <-]. lia.
  - destruct (body s x) as [e|s1] eqn:Hs1; unfold bind; [discriminate|].
    intros Hrest. apply IH in Hrest. apply Hbody in Hs1. lia.
Qed.

End Counting.

Lemma run_shallow_exc_case_tallied (s : Results) (test_case : PyVal) :
  cases_tallied (run_shallow_exc_case s test_case) = (cases_tallied s + 1)%Z.
Proof.
  unfold run_shallow_exc_case. destruct (bind _ _).
  - apply cases_tallied_failure.
  - apply cases_tallied_success.
Qed.

Lemma run_deep_exc_case_tallied (s : Results) (test_case : PyVal) :
  cases_tallied (run_deep_exc_case s test_case) = (cases_tallied s + 1)%Z.
Proof.
  unfold run_deep_exc_case. destruct (bind _ _).
  - apply cases_tallied_failure.
  - apply cases_tallied_success.
Qed.

Ltac case_tallied body :=
  let s := fresh "s" in
  let tc := fresh "tc" in
  let s' := fresh "s'" in
  intros s tc s'; unfold body;
  destruct (py_getitem tc "message") as [?|?]; unfold bind, ret; [discriminate|];
  match goal with
  | |- context [parse_message_shallow_tuple ?m] =>
      destruct (parse_message_shallow_tuple m) as [? [?|]]
  | |- context [process_batch_deep_tuple ?m] =>
      destruct (process_batch_deep_tuple m) as [? [?|]]
  | |- context [parse_message_shallow_union ?m] =>
      destruct (parse_message_shallow_union m)
  | |- context [process_batch_deep_union ?m] =>
      destruct (process_batch_deep_union m)
  end;
  intros [= <-];
  first [apply cases_tallied_failure | apply cases_tallied_success].

Lemma run_shallow_tuple_case_tallied :
  forall s tc s', run_shallow_tuple_case s tc = inr s' ->
                  cases_tallied s' = (cases_tallied s + 1)%Z.
Proof. case_tallied run_shallow_tuple_case. Qed.

Lemma run_deep_tuple_case_tallied :
  forall s tc s', run_deep_tuple_case s tc = inr s' ->
                  cases_tallied s' = (cases_tallied s + 1)%Z.
Proof. case_tallied run_deep_tuple_case. Qed.

Lemma run_shallow_union_case_tallied :
  forall s tc s', run_shallow_union_case s tc = inr s' ->
                  cases_tallied s' = (cases_tallied s + 1)%Z.
Proof. case_tallied run_shallow_union_case. Qed.

Lemma run_deep_union_case_tallied :
  forall s tc s', run_deep_union_case s tc = inr s' ->
                  cases_tallied s' = (cases_tallied s + 1)%Z.
Proof. case_tallied run_deep_union_case. Qed.

(** C8.  For every batch, the success and failure counts of a runner add up
    to the number of test cases: always for the two Raising runners, which
    return on every batch, and whenever the run returns for the other four. *)
Theorem counts_add_up_to_batch_size (test_cases : list PyVal) :
  let n := Z.of_nat (length test_cases) in
  (success (run_shallow_exc test_cases) + failure (run_shallow_exc test_cases) = n)%Z /\
  (success (run_deep_exc test_cases) + failure (run_deep_exc test_cases) = n)%Z /\
  (forall r, run_shallow_tuple test_cases = inr r -> (success r + failure r = n)%Z) /\
  (forall r, run_deep_tuple test_cases = inr r -> (success r + failure r = n)%Z) /\
  (forall r, run_shallow_union test_cases = inr r -> (success r + failure r = n)%Z) /\
  (forall r, run_deep_union test_cases = inr r -> (success r + failure r = n)%Z).
Proof.
  cbv zeta. repeat split.
  - apply (fold_left_tallied _ run_shallow_exc_case_tallied test_cases initial_results).
  - apply (fold_left_tallied _ run_deep_exc_case_tallied test_cases initial_results).
  - intros r Hr.
    apply (for_each_tallied _ run_shallow_tuple_case_tallied _ _ _ Hr).
  - intros r Hr.
    apply (for_each_tallied _ run_deep_tuple_case_tallied _ _ _ Hr).
  - intros r Hr.
    apply (for_each_tallied _ run_shallow_union_case_tallied _ _ _ Hr).
  - intros r Hr.
    apply (for_each_tallied _ run_deep_union_case_tallied _ _ _ Hr).
Qed.

(** ** A test case without a message *)

Lemma for_each_app {S X : Type} (body : S -> X -> exc S) (xs ys : list X) (s : S) :
  for_each body (xs ++ ys) s = (s' <- for_each body xs s ;; for_each body ys s').
Proof.
  revert s. induction xs as [|x xs IH]; intros s; cbn [for_each app]; [reflexivity|].
  destruct (body s x) as [e|s1]; unfold bind; [reflexivity|]. apply IH.
Qed.

(** A loop stops with an exception when its body raises on some element. *)
Lemma for_each_aborts {S X : Type} (body : S -> X -> exc S) (pre post : list X) (x : X) :
  (forall s, exists e, body s x = inl e) ->
  forall s, exists e, for_each body (pre ++ x :: post) s = inl e.
Proof.
  intros Hx s. rewrite for_each_app.
  destruct (for_each body pre s) as [e|s1]; unfold bind; [exists e; reflexivity|].
  cbn [for_each]. destruct (Hx s1) as [e ->]. exists e. reflexivity.
Qed.

(** ... and with that exception when the loop gets as far as the element. *)
Lemma for_each_aborts_after {S X : Type} (body : S -> X -> exc S)
    (pre post : list X) (x : X) (e : PyExc) (s s1 : S) :
  for_each body pre s = inr s1 ->
  body s1 x = inl e ->
  for_each body (pre ++ x :: post) s = inl e.
Proof.
  intros Hpre Hx. rewrite for_each_app, Hpre. unfold bind. cbn [for_each].
  rewrite Hx. reflexivity.
Qed.

Section MissingMessage.

Variable items : list (string * PyVal).
Hypothesis Hmissing : dict_lookup items "message" = None.

Lemma getitem_missing : py_getitem (PyDict items) "message" = inl (KeyError "message").
Proof. cbn [py_getitem]. rewrite Hmissing. reflexivity. Qed.

Lemma run_shallow_exc_case_missing (s : Results) :
  run_shallow_exc_case s (PyDict items) = count_failure s "KeyError".
Proof. unfold run_shallow_exc_case. rewrite getitem_missing. reflexivity. Qed.

Lemma run_deep_exc_case_missing (s : Results) :
  run_deep_exc_case s (PyDict items) = count_failure s "KeyError".
Proof. unfold run_deep_exc_case. rewrite getitem_missing. reflexivity. Qed.

Lemma run_shallow_tuple_case_missing (s : Results) :
  run_shallow_tuple_case s (PyDict items) = inl (KeyError "message").
Proof. unfold run_shallow_tuple_case. rewrite getitem_missing. reflexivity. Qed.

Lemma run_deep_tuple_case_missing (s : Results) :
  run_deep_tuple_case s (PyDict items) = inl (KeyError "message").
Proof. unfold run_deep_tuple_case. rewrite getitem_missing. reflexivity. Qed.

Lemma run_shallow_union_case_missing (s : Results) :
  run_shallow_union_case s (PyDict items) = inl (KeyError "message").
Proof. unfold run_shallow_union_case. rewrite getitem_missing. reflexivity. Qed.

Lemma run_deep_union_case_missing (s : Results) :
  run_deep_union_case s (PyDict items) = inl (KeyError "message").
Proof. unfold run_deep_union_case. rewrite getitem_missing. reflexivity. Qed.

End MissingMessage.

(** C10.  When a record of the batch lacks the message key, the two Raising
    runners count it as a failure named KeyError and go on with the rest of
    the batch, while the Paired-Return and Tagged-Union runners return no
    tallies: an exception leaves the runner, and it is that KeyError when
    every earlier case has a message. *)
Theorem missing_message_splits_the_strategies
    (pre post : list PyVal) (items : list (string * PyVal)) :
  dict_lookup items "message" = None ->
  let batch := pre ++ PyDict items :: post in
  run_shallow_exc batch
    = fold_left run_shallow_exc_case post (count_failure (run_shallow_exc pre) "KeyError") /\
  run_deep_exc batch
    = fold_left run_deep_exc_case post (count_failure (run_deep_exc pre) "KeyError") /\
  (exists e, run_shallow_tuple batch = inl e) /\
  (exists e, run_deep_tuple batch = inl e) /\
  (exists e, run_shallow_union batch = inl e) /\
  (exists e, run_deep_union batch = inl e) /\
  (Forall has_message pre ->
   run_shallow_tuple batch = inl (KeyError "message") /\
   run_deep_tuple batch = inl (KeyError "message") /\
   run_shallow_union batch = inl (KeyError "message") /\
   run_deep_union batch = inl (KeyError "message")).
Proof.
  intros Hmissing. cbv zeta.
  split; [|split; [|split; [|split; [|split; [|split]]]]].
  - unfold run_shallow_exc. rewrite fold_left_app. cbn [fold_left].
    rewrite (run_shallow_exc_case_missing _ Hmissing). reflexivity.
  - unfold run_deep_exc. rewrite fold_left_app. cbn [fold_left].
    rewrite (run_deep_exc_case_missing _ Hmissing). reflexivity.
  - apply for_each_aborts. intros s. eexists.
    apply (run_shallow_tuple_case_missing _ Hmissing).
  - apply for_each_aborts. intros s. eexists.
    apply (run_deep_tuple_case_missing _ Hmissing).
  - apply for_each_aborts. intros s. eexists.
    apply (run_shallow_union_case_missing _ Hmissing).
  - apply for_each_aborts. intros s. eexists.
    apply (run_deep_union_case_missing _ Hmissing).
  - intros Hpre. destruct (runners_agree pre Hpre) as (Hst & Hsu & Hdt & Hdu).
    repeat split.
    + apply (for_each_aborts_after _ _ _ _ _ _ _ Hst),
        (run_shallow_tuple_case_missing _ Hmissing).
    + apply (for_each_aborts_after _ _ _ _ _ _ _ Hdt),
        (run_deep_tuple_case_missing _ Hmissing).
    + apply (for_each_aborts_after _ _ _ _ _ _ _ Hsu),
        (run_shallow_union_case_missing _ Hmissing).
    + apply (for_each_aborts_after _ _ _ _ _ _ _ Hdu),
        (run_deep_union_case_missing _ Hmissing).
Qed.

(** ** Whitespace normalisation is idempotent *)

Lemma split_cons (c : ascii) (s : string) :
  Str.split (String c s)
  = if Str.isspace c then Str.split s
    else match s with
         | EmptyString => [Str.chr c]
         | String c' _ =>
             if Str.isspace c' then Str.chr c :: Str.split s
             else match Str.split s with
                  | w :: ws => String c w :: ws
                  | [] => [Str.chr c]
                  end
         end.
Proof. reflexivity. Qed.

Lemma no_space_cons (c : ascii) (w : string) :
  no_space (String c w) = true -> Str.isspace c = false /\ no_space w = true.
Proof.
  cbn [no_space]. intros H. apply andb_prop in H as [Hc Hw].
  apply negb_true_iff in Hc. split; assumption.
Qed.

Lemma split_space (c : ascii) (s : string) :
  Str.isspace c = true -> Str.split (String c s) = Str.split s.
Proof. intros H. rewrite split_cons, H. reflexivity. Qed.

Lemma split_word_then_space (w r : string) :
  is_word w -> Str.split (w +:+ String " " r) = w :: Str.split r.
Proof.
  intros [Hne Hw]. induction w as [|c w IH]; [discriminate Hne|].
  apply no_space_cons in Hw as [Hc Hw].
  change (String c w +:+ String " " r) with (String c (w +:+ String " " r)).
  rewrite split_cons, Hc. destruct w as [|c' w].
  - change (EmptyString +:+ String " " r) with (String " " r).
    rewrite (split_space " " r eq_refl). reflexivity.
  - rewrite (IH eq_refl Hw). apply no_space_cons in Hw as [Hc' _].
    change (String c' w +:+ String " " r) with (String c' (w +:+ String " " r)).
    cbv beta iota. rewrite Hc'. reflexivity.
Qed.

Lemma split_one_word (w : string) : is_word w -> Str.split w = [w].
Proof.
  intros [Hne Hw]. induction w as [|c w IH]; [discriminate Hne|].
  apply no_space_cons in Hw as [Hc Hw].
  rewrite split_cons, Hc. destruct w as [|c' w]; [reflexivity|].
  rewrite (IH eq_refl Hw). apply no_space_cons in Hw as [Hc' _].
  rewrite Hc'. reflexivity.
Qed.

Lemma split_join (ws : list string) :
  Forall is_word ws -> Str.split (Str.join " " ws) = ws.
Proof.
  induction 1 as [|w ws Hw Hws IH]; [reflexivity|].
  destruct ws as [|w' ws].
  - apply split_one_word, Hw.
  - change (Str.join " " (w :: w' :: ws))
      with (w +:+ String " " (Str.join " " (w' :: ws))).
    rewrite (split_word_then_space _ _ Hw), IH. reflexivity.
Qed.

Lemma split_words (s : string) : Forall is_word (Str.split s).
Proof.
  induction s as [|c s IH]; [constructor|].
  rewrite split_cons. destruct (Str.isspace c) eqn:Hc; [exact IH|].
  assert (Hchr : is_word (Str.chr c)).
  { split; [reflexivity|]. cbn [Str.chr no_space]. rewrite Hc. reflexivity. }
  destruct s as [|c' s]; [repeat constructor; apply Hchr|].
  destruct (Str.isspace c') eqn:Hc'; [constructor; [exact Hchr | exact IH]|].
  destruct (Str.split (String c' s)) as [|w ws]; [repeat constructor; apply Hchr|].
  inversion IH as [|? ? [_ Hw] Hws]; subst. constructor; [|exact Hws].
  split; [reflexivity|]. cbn [no_space]. rewrite Hc, Hw. reflexivity.
Qed.

Lemma squeeze_idempotent (s : string) : squeeze (squeeze s) = squeeze s.
Proof. unfold squeeze. rewrite (split_join _ (split_words s)). reflexivity. Qed.

(** ** The two depths *)

Lemma parse_message_shallow_exc_text (message : PyVal) :
  parse_message_shallow_exc message
  = parse_datetime_shallow_exc (strip_quotes (squeeze (extracted_text message))).
Proof. reflexivity. Qed.

Lemma process_batch_deep_exc_text (message : PyVal) :
  process_batch_deep_exc message = parse_datetime_deep_exc (extracted_text message).
Proof. destruct message; reflexivity. Qed.

Lemma parse_datetime_depths (s : string) :
  parse_datetime_deep_exc s = parse_datetime_shallow_exc s.
Proof. reflexivity. Qed.

Lemma parse_datetime_shallow_exc_squeeze (s : string) :
  parse_datetime_shallow_exc (squeeze s) = parse_datetime_shallow_exc s.
Proof.
  unfold parse_datetime_shallow_exc. cbv zeta.
  change (Str.join " " (Str.split (squeeze s))) with (squeeze (squeeze s)).
  rewrite squeeze_idempotent. reflexivity.
Qed.

(** The shallow and the deep pipeline return the same result on every
    message from which the shallow extraction has no quote to strip. *)
Lemma depths_agree_without_quotes (message : PyVal) :
  strip_quotes (squeeze (extracted_text message)) = squeeze (extracted_text message) ->
  parse_message_shallow_exc message = process_batch_deep_exc message.
Proof.
  intros H. rewrite process_batch_deep_exc_text, parse_datetime_depths.
  rewrite parse_message_shallow_exc_text, H.
  apply parse_datetime_shallow_exc_squeeze.
Qed.

Lemma depths_agree_in_every_strategy (message : PyVal) :
  strip_quotes (squeeze (extracted_text message)) = squeeze (extracted_text message) ->
  parse_message_shallow_tuple message = process_batch_deep_tuple message /\
  parse_message_shallow_union message = process_batch_deep_union message.
Proof.
  intros H.
  rewrite parse_message_shallow_tuple_exc, process_batch_deep_tuple_exc.
  rewrite parse_message_shallow_union_exc, process_batch_deep_union_exc.
  rewrite (depths_agree_without_quotes _ H). split; reflexivity.
Qed.

(** The validation is only ever given a text: no message makes a pipeline
    fail with a TypeError. *)
Lemma validate_format_text_not_type_error (text : string) :
  classify_exc (validate_format_shallow_exc (PyStr text)) <> Failure "TypeError".
Proof.
  cbn [validate_format_shallow_exc]. destruct (Str.truthy text); cbn [negb].
  - destruct (Strptime.strptime text); discriminate.
  - discriminate.
Qed.

Lemma type_error_is_never_reached (message : PyVal) :
  classify_exc (parse_message_shallow_exc message) <> Failure "TypeError" /\
  classify_exc (process_batch_deep_exc message) <> Failure "TypeError".
Proof.
  split.
  - apply validate_format_text_not_type_error.
  - rewrite process_batch_deep_exc_text. apply validate_format_text_not_type_error.
Qed.

(** ** Particular messages *)

(** C1.  On the message whose timestamp is the integer 123456 every
    strategy fails at either depth, and the exception is a ValueError: the
    payload is turned into text before it reaches the validation, which
    then cannot parse it. *)
Theorem int_timestamp_fails_with_value_error :
  classify_exc (parse_message_shallow_exc message_with_int_timestamp) = Failure "ValueError" /\
  classify_exc (process_batch_deep_exc message_with_int_timestamp) = Failure "ValueError" /\
  classify_tuple (parse_message_shallow_tuple message_with_int_timestamp) = Failure "ValueError" /\
  classify_tuple (process_batch_deep_tuple message_with_int_timestamp) = Failure "ValueError" /\
  classify_union (parse_message_shallow_union message_with_int_timestamp) = Failure "ValueError" /\
  classify_union (process_batch_deep_union message_with_int_timestamp) = Failure "ValueError".
Proof. repeat split; vm_compute; reflexivity. Qed.

(** C3.  On the message whose timestamp text is wrapped in double quotes
    the shallow pipeline of every strategy succeeds and the deep pipeline of
    the same strategy fails with a ValueError. *)
Theorem quoted_timestamp_depends_on_depth :
  classify_exc (parse_message_shallow_exc message_with_quoted_timestamp) = Success /\
  classify_exc (process_batch_deep_exc message_with_quoted_timestamp) = Failure "ValueError" /\
  classify_tuple (parse_message_shallow_tuple message_with_quoted_timestamp) = Success /\
  classify_tuple (process_batch_deep_tuple message_with_quoted_timestamp)
    = Failure "ValueError" /\
  classify_union (parse_message_shallow_union message_with_quoted_timestamp) = Success /\
  classify_union (process_batch_deep_union message_with_quoted_timestamp)
    = Failure "ValueError".
Proof. repeat split; vm_compute; reflexivity. Qed.

(** The deep entry point hands the message over unchanged: what the two
    outer levels compute is dropped. *)
Lemma process_batch_deep_exc_inner (message : PyVal) :
  process_batch_deep_exc message
  = parse_message_deep_exc
      (PyDict match message with PyDict items => items | _ => [] end).
Proof. reflexivity. Qed.

Section ValidTimestamp.

Variable items : list (string * PyVal).
Hypothesis Htimestamp :
  dict_lookup items "timestamp" = Some (PyStr "2024-01-15 10:30:45").

Lemma valid_shallow_exc :
  parse_message_shallow_exc (PyDict items) = inr timestamp_2024_01_15.
Proof.
  unfold parse_message_shallow_exc. cbv zeta. unfold dict_get.
  rewrite Htimestamp. vm_compute. reflexivity.
Qed.

Lemma valid_deep_exc :
  process_batch_deep_exc (PyDict items) = inr timestamp_2024_01_15.
Proof.
  rewrite process_batch_deep_exc_inner.
  unfold parse_message_deep_exc. cbv zeta. unfold dict_get.
  rewrite Htimestamp. vm_compute. reflexivity.
Qed.

End ValidTimestamp.

(** C5.  A mapping whose timestamp field is the text 2024-01-15 10:30:45,
    whatever its other fields, is parsed by every strategy at either depth
    to the timestamp 2024-01-15T10:30:45. *)
Theorem valid_timestamp_is_parsed (items : list (string * PyVal)) :
  dict_lookup items "timestamp" = Some (PyStr "2024-01-15 10:30:45") ->
  parse_message_shallow_exc (PyDict items) = inr timestamp_2024_01_15 /\
  process_batch_deep_exc (PyDict items) = inr timestamp_2024_01_15 /\
  parse_message_shallow_tuple (PyDict items) = (Some timestamp_2024_01_15, None) /\
  process_batch_deep_tuple (PyDict items) = (Some timestamp_2024_01_15, None) /\
  parse_message_shallow_union (PyDict items) = UTimestamp timestamp_2024_01_15 /\
  process_batch_deep_union (PyDict items) = UTimestamp timestamp_2024_01_15.
Proof.
  intros H.
  rewrite parse_message_shallow_tuple_exc, parse_message_shallow_union_exc.
  rewrite process_batch_deep_tuple_exc, process_batch_deep_union_exc.
  rewrite (valid_shallow_exc _ H), (valid_deep_exc _ H).
  repeat split.
Qed.

Lemma valid_timestamp_is_parsed_witness :
  parse_message_shallow_exc
    (PyDict [("timestamp", PyStr "2024-01-15 10:30:45"); ("user", PyStr "user_7");
             ("data", PyStr "message content 7")])
  = inr timestamp_2024_01_15.
Proof.
  apply (valid_timestamp_is_parsed
           [("timestamp", PyStr "2024-01-15 10:30:45"); ("user", PyStr "user_7");
            ("data", PyStr "message content 7")]).
  reflexivity.
Defined.

Lemma not_a_mapping_shallow_exc (message : PyVal) :
  is_dict message = false ->
  parse_message_shallow_exc message = inl empty_complaint.
Proof.
  intros H. unfold parse_message_shallow_exc. cbv zeta.
  destruct message; try discriminate H; vm_compute; reflexivity.
Qed.

Lemma not_a_mapping_deep_exc (message : PyVal) :
  is_dict message = false ->
  process_batch_deep_exc message = inl empty_complaint.
Proof.
  intros H. rewrite process_batch_deep_exc_inner.
  destruct message; try discriminate H; vm_compute; reflexivity.
Qed.

(** C6.  A message that is not a mapping ([None], a number, a text, a
    boolean, a list) fails in every strategy at either depth with the
    ValueError for an empty text, never with a TypeError. *)
Theorem not_a_mapping_is_empty_text (message : PyVal) :
  is_dict message = false ->
  parse_message_shallow_exc message = inl empty_complaint /\
  process_batch_deep_exc message = inl empty_complaint /\
  parse_message_shallow_tuple message = (None, Some empty_complaint) /\
  process_batch_deep_tuple message = (None, Some empty_complaint) /\
  parse_message_shallow_union message = UException empty_complaint /\
  process_batch_deep_union message = UException empty_complaint.
Proof.
  intros H.
  rewrite parse_message_shallow_tuple_exc, parse_message_shallow_union_exc.
  rewrite process_batch_deep_tuple_exc, process_batch_deep_union_exc.
  rewrite (not_a_mapping_shallow_exc _ H), (not_a_mapping_deep_exc _ H).
  repeat split.
Qed.

Lemma not_a_mapping_is_empty_text_witness :
  process_batch_deep_tuple PyNone = (None, Some empty_complaint) /\
  parse_message_shallow_union (PyFloat "12.34") = UException empty_complaint.
Proof.
  split.
  - apply (not_a_mapping_is_empty_text PyNone). reflexivity.
  - apply (not_a_mapping_is_empty_text (PyFloat "12.34")). reflexivity.
Defined.

(** ** Per-call averages *)

Lemma percall_value (total : Q) (calls : Z) :
  percall total calls
  = inr (if (0 <? calls)%Z then (total / inject_Z calls)%Q else 0%Q).
Proof.
  unfold percall, truediv. destruct (Z.ltb_spec 0 calls) as [Hpos|Hnot]; [|reflexivity].
  destruct (Z.eqb_spec calls 0) as [->|_]; [lia|reflexivity].
Qed.

Lemma no_calls_consistent : percall_consistent no_calls.
Proof. split; cbn; intros H; [split; reflexivity | lia]. Qed.

Lemma recorded_consistent (entry : StatsEntry) :
  percall_consistent
    (mk_times (nc entry) (tt entry) (ct entry)
       (if (0 <? nc entry)%Z then (tt entry / inject_Z (nc entry))%Q else 0%Q)
       (if (0 <? nc entry)%Z then (ct entry / inject_Z (nc entry))%Q else 0%Q)).
Proof.
  split; cbn [ncalls tottime cumtime percall_tot percall_cum]; intros H.
  - rewrite H. split; reflexivity.
  - apply Z.ltb_lt in H. rewrite H. split; reflexivity.
Qed.

Section Extraction.

Variable func_patterns : list string.

Let consistent (times : gmap string FunctionTimes) : Prop :=
  map_Forall (fun _ entry => percall_consistent entry) times.

Lemma initial_times_consistent (patterns : list string)
    (times : gmap string FunctionTimes) :
  consistent times ->
  consistent
    (fold_left (fun acc func_pattern => <[func_pattern := no_calls]> acc) patterns times).
Proof.
  revert times. induction patterns as [|p patterns IH]; intros times Htimes;
    cbn [fold_left]; [exact Htimes|].
  apply IH. apply map_Forall_insert_2; [exact no_calls_consistent | exact Htimes].
Qed.

Lemma record_entry_consistent (times : gmap string FunctionTimes) (entry : StatsEntry) :
  consistent times ->
  exists times', record_entry func_patterns times entry = inr times' /\ consistent times'.
Proof.
  intros Htimes. unfold record_entry. cbv zeta.
  destruct (find _ func_patterns) as [pattern|]; [|exists times; split; [reflexivity|exact Htimes]].
  rewrite !percall_value. unfold bind, ret. eexists. split; [reflexivity|].
  apply map_Forall_insert_2; [apply recorded_consistent | exact Htimes].
Qed.

Lemma for_each_entry_consistent (stats : list StatsEntry) :
  forall times, consistent times ->
  exists times',
    for_each (record_entry func_patterns) stats times = inr times' /\ consistent times'.
Proof.
  induction stats as [|entry stats IH]; intros times Htimes; cbn [for_each].
  - exists times. split; [reflexivity | exact Htimes].
  - destruct (record_entry_consistent times entry Htimes) as (times1 & -> & Htimes1).
    unfold bind. apply IH, Htimes1.
Qed.

End Extraction.

(** C9.  The extraction returns for every profiler table and every list of
    patterns, with no division error, and in each entry of what it returns
    the two per-call averages are zero when the call count is zero and the
    quotients of the entry's times by its call count when it is positive. *)
Theorem percall_averages_are_guarded (stats : list StatsEntry) (func_patterns : list string) :
  exists function_times,
    extract_function_stats stats func_patterns = inr function_times /\
    map_Forall (fun _ times => percall_consistent times) function_times.
Proof.
  unfold extract_function_stats. cbv zeta.
  apply for_each_entry_consistent, initial_times_consistent, map_Forall_empty.
Qed.

(** ** Microseconds per test *)

(** C4.  For a batch of two cases that took one second, the record written
    for the run reports 1000 microseconds per test, the elapsed time
    divided by 1000 and not by the two cases of the batch, which would give
    500000. *)
Theorem us_per_test_divides_by_1000 :
  exists record,
    bench_data "Exception Handling - Shallow Stack"
               ["validate_format_shallow_exc"; "parse_datetime_shallow_exc";
                "parse_message_shallow_exc"]
               one_second_on_two_cases = inr record /\
    (bench_us_per_test record == 1000)%Q /\
    ~ (bench_us_per_test record
       == total_time one_second_on_two_cases
          / inject_Z (Z.of_nat (length two_cases)) * 1000000)%Q.
Proof.
  eexists. split; [vm_compute; reflexivity|].
  split; [reflexivity|]. intros H. vm_compute in H. discriminate H.
Qed.

(** On a batch of the 1000 cases the generator writes, the figure is the
    elapsed time over the batch size. *)
Lemma us_per_test_on_1000_cases (test_cases : list PyVal) (elapsed : Q) :
  length test_cases = 1000%nat ->
  us_per_test elapsed = (elapsed / inject_Z (Z.of_nat (length test_cases)) * 1000000)%Q.
Proof. intros ->. reflexivity. Qed.

(** ** Instances *)

Lemma counts_add_up_to_batch_size_witness :
  (success (run_deep_exc batch_with_gap) + failure (run_deep_exc batch_with_gap) = 3)%Z /\
  (success (mk_results 0 2 ["ValueError"; "ValueError"])
   + failure (mk_results 0 2 ["ValueError"; "ValueError"]) = 2)%Z.
Proof.
  split.
  - exact (proj1 (proj2 (counts_add_up_to_batch_size batch_with_gap))).
  - apply (proj1 (proj2 (proj2 (counts_add_up_to_batch_size two_cases)))).
    vm_compute. reflexivity.
Defined.

Lemma missing_message_splits_the_strategies_witness :
  run_shallow_exc batch_with_gap = mk_results 1 2 ["KeyError"; "ValueError"] /\
  run_shallow_tuple batch_with_gap = inl (KeyError "message") /\
  run_deep_union batch_with_gap = inl (KeyError "message").
Proof.
  destruct (missing_message_splits_the_strategies
              [case_before] [case_after] record_without_message eq_refl)
    as (Hexc & _ & _ & _ & _ & _ & Hkey).
  assert (Hbefore : Forall has_message [case_before]).
  { repeat constructor. eexists. reflexivity. }
  destruct (Hkey Hbefore) as (Htuple & _ & _ & Hunion).
  split; [|split].
  - unfold batch_with_gap. rewrite Hexc. vm_compute. reflexivity.
  - exact Htuple.
  - exact Hunion.
Defined.

(** * Further properties *)

(** ** What a pipeline can return *)

Lemma validate_format_text_outcome (text : string) :
  success_or_value_error (classify_exc (validate_format_shallow_exc (PyStr text))).
Proof.
  cbn [validate_format_shallow_exc]. destruct (Str.truthy text); cbn [negb].
  - destruct (Strptime.strptime text); [right | left]; reflexivity.
  - right. reflexivity.
Qed.

Lemma shallow_exc_outcome (message : PyVal) :
  success_or_value_error (classify_exc (parse_message_shallow_exc message)).
Proof. apply validate_format_text_outcome. Qed.

Lemma deep_exc_outcome (message : PyVal) :
  success_or_value_error (classify_exc (process_batch_deep_exc message)).
Proof. rewrite process_batch_deep_exc_text. apply validate_format_text_outcome. Qed.

(** X2.  Whatever the message, each of the six entry points either succeeds
    or fails with a ValueError: no other exception class comes out of a
    pipeline. *)
Theorem pipelines_fail_only_with_value_error (message : PyVal) :
  success_or_value_error (classify_exc (parse_message_shallow_exc message)) /\
  success_or_value_error (classify_exc (process_batch_deep_exc message)) /\
  success_or_value_error (classify_tuple (parse_message_shallow_tuple message)) /\
  success_or_value_error (classify_tuple (process_batch_deep_tuple message)) /\
  success_or_value_error (classify_union (parse_message_shallow_union message)) /\
  success_or_value_error (classify_union (process_batch_deep_union message)).
Proof.
  rewrite parse_message_shallow_tuple_exc, parse_message_shallow_union_exc.
  rewrite process_batch_deep_tuple_exc, process_batch_deep_union_exc.
  rewrite !classify_to_pair, !classify_to_union.
  pose proof (shallow_exc_outcome message). pose proof (deep_exc_outcome message).
  repeat split; assumption.
Qed.

Lemma lstrip_all_space (s : string) :
  all_space s = true -> Str.lstrip_with Str.isspace s = EmptyString.
Proof.
  induction s as [|c s IH]; [reflexivity|].
  cbn [all_space Str.lstrip_with]. intros H. apply andb_prop in H as [-> Hs].
  apply IH, Hs.
Qed.

Lemma strip_all_space (s : string) : all_space s = true -> Str.strip s = EmptyString.
Proof.
  intros H. unfold Str.strip, Str.strip_with. rewrite (lstrip_all_space _ H). reflexivity.
Qed.

Lemma blank_extracted_text (items : list (string * PyVal)) :
  blank_timestamp items -> extracted_text (PyDict items) = EmptyString.
Proof.
  unfold extracted_text, dict_get. cbv zeta.
  intros [-> | [-> | (s & -> & Hs)]]; [reflexivity | reflexivity |].
  cbn [is_none py_str]. rewrite (strip_all_space _ Hs). reflexivity.
Qed.

(** X3.  A mapping whose timestamp field is absent, is [None] or is a text
    of whitespace only fails in every strategy at either depth with the
    ValueError for an empty text. *)
Theorem blank_timestamp_is_empty_text (items : list (string * PyVal)) :
  blank_timestamp items ->
  parse_message_shallow_exc (PyDict items) = inl empty_complaint /\
  process_batch_deep_exc (PyDict items) = inl empty_complaint /\
  parse_message_shallow_tuple (PyDict items) = (None, Some empty_complaint) /\
  process_batch_deep_tuple (PyDict items) = (None, Some empty_complaint) /\
  parse_message_shallow_union (PyDict items) = UException empty_complaint /\
  process_batch_deep_union (PyDict items) = UException empty_complaint.
Proof.
  intros H.
  rewrite parse_message_shallow_tuple_exc, parse_message_shallow_union_exc.
  rewrite process_batch_deep_tuple_exc, process_batch_deep_union_exc.
  rewrite parse_message_shallow_exc_text, process_batch_deep_exc_text.
  rewrite (blank_extracted_text _ H). repeat split.
Qed.

Lemma blank_timestamp_is_empty_text_witness :
  parse_message_shallow_exc (PyDict [("user", PyStr "x")]) = inl empty_complaint /\
  process_batch_deep_union
    (PyDict [("timestamp", PyStr (String Str.tab "  ")); ("user", PyStr "x")])
  = UException empty_complaint.
Proof.
  split.
  - apply (blank_timestamp_is_empty_text [("user", PyStr "x")]). left. reflexivity.
  - apply (blank_timestamp_is_empty_text
             [("timestamp", PyStr (String Str.tab "  ")); ("user", PyStr "x")]).
    right. right. eexists. split; reflexivity.
Defined.

(** ** Whole batches *)

(** X1.  On a batch whose cases all have a message, the three runners of a
    depth return the same tallies and the same list of error names. *)
Theorem batch_results_agree_across_strategies (test_cases : list PyVal) :
  Forall has_message test_cases ->
  run_shallow_tuple test_cases = inr (run_shallow_exc test_cases) /\
  run_shallow_union test_cases = inr (run_shallow_exc test_cases) /\
  run_deep_tuple test_cases = inr (run_deep_exc test_cases) /\
  run_deep_union test_cases = inr (run_deep_exc test_cases).
Proof. apply runners_agree. Qed.

Lemma batch_results_agree_across_strategies_witness :
  run_shallow_tuple two_cases = inr (run_shallow_exc two_cases) /\
  run_shallow_union two_cases = inr (run_shallow_exc two_cases) /\
  run_deep_tuple two_cases = inr (run_deep_exc two_cases) /\
  run_deep_union two_cases = inr (run_deep_exc two_cases).
Proof.
  apply (batch_results_agree_across_strategies two_cases).
  repeat constructor; eexists; reflexivity.
Defined.

(** ** Invariants of the tallies *)

Section Invariants.

Context {X : Type} (P : Results -> Prop).

Lemma fold_left_keeps (step : Results -> X -> Results) :
  (forall s x, P s -> P (step s x)) ->
  forall xs s, P s -> P (fold_left step xs s).
Proof.
  intros Hstep xs. induction xs as [|x xs IH]; intros s Hs; cbn [fold_left].
  - exact Hs.
  - apply IH, Hstep, Hs.
Qed.

Lemma for_each_keeps (body : Results -> X -> exc Results) :
  (forall s x s', P s -> body s x = inr s' -> P s') ->
  forall xs s s', P s -> for_each body xs s = inr s' -> P s'.
Proof.
  intros Hbody xs. induction xs as [|x xs IH]; intros s s' Hs; cbn [for_each].
  - intros [= <-]. exact Hs.
  - destruct (body s x) as [e|s1] eqn:Hs1; unfold bind; [discriminate|].
    apply IH. apply (Hbody s x s1 Hs Hs1).
Qed.

End Invariants.

Lemma one_name_count_success (s : Results) :
  one_name_per_failure s -> one_name_per_failure (count_success s).
Proof. exact (fun H => H). Qed.

Lemma one_name_count_failure (s : Results) (name : string) :
  one_name_per_failure s -> one_name_per_failure (count_failure s name).
Proof.
  unfold one_name_per_failure, count_failure. cbn [errors failure].
  rewrite length_app. cbn [length]. lia.
Qed.

Lemma tally_counted_as (s : Results) (c : Classification) :
  success_or_value_error c -> counted_as (eq "ValueError") s (tally s c).
Proof.
  intros [-> | ->]; [left; reflexivity|].
  right. exists "ValueError". split; reflexivity.
Qed.

Lemma counted_as_weaken (P Q : string -> Prop) (s s' : Results) :
  (forall name, P name -> Q name) -> counted_as P s s' -> counted_as Q s s'.
Proof.
  intros HPQ [H | (name & Hname & H)]; [left; exact H|].
  right. exists name. split; [apply HPQ, Hname | exact H].
Qed.

Lemma getitem_exception (test_case : PyVal) (e : PyExc) :
  py_getitem test_case "message" = inl e -> lookup_or_value_error (exc_name e).
Proof.
  destruct test_case; cbn [py_getitem]; try (intros [= <-]; right; right; reflexivity).
  destruct (dict_lookup items "message"); [discriminate|].
  intros [= <-]. right; left; reflexivity.
Qed.

Lemma run_shallow_exc_case_counted (s : Results) (test_case : PyVal) :
  counted_as lookup_or_value_error s (run_shallow_exc_case s test_case).
Proof.
  destruct (py_getitem test_case "message") as [e|m] eqn:Hm.
  - right. exists (exc_name e). split; [apply (getitem_exception _ _ Hm)|].
    unfold run_shallow_exc_case. rewrite Hm. reflexivity.
  - rewrite (run_shallow_exc_case_tally s test_case m Hm).
    apply (counted_as_weaken (eq "ValueError")); [intros ? <-; left; reflexivity|].
    apply tally_counted_as, shallow_exc_outcome.
Qed.

Lemma run_deep_exc_case_counted (s : Results) (test_case : PyVal) :
  counted_as lookup_or_value_error s (run_deep_exc_case s test_case).
Proof.
  destruct (py_getitem test_case "message") as [e|m] eqn:Hm.
  - right. exists (exc_name e). split; [apply (getitem_exception _ _ Hm)|].
    unfold run_deep_exc_case. rewrite Hm. reflexivity.
  - rewrite (run_deep_exc_case_tally s test_case m Hm).
    apply (counted_as_weaken (eq "ValueError")); [intros ? <-; left; reflexivity|].
    apply tally_counted_as, deep_exc_outcome.
Qed.

Ltac case_counted tally_lemma agree classify_agree outcome :=
  let s := fresh "s" in
  let tc := fresh "tc" in
  let s' := fresh "s'" in
  let m := fresh "m" in
  let Hm := fresh "Hm" in
  intros s tc s';
  destruct (py_getitem tc "message") as [?|m] eqn:Hm;
  [ match goal with |- ?body _ _ = _ -> _ => unfold body end;
    rewrite Hm; unfold bind; discriminate
  | rewrite (tally_lemma s tc m Hm), agree, classify_agree;
    match goal with
    | |- inr (tally _ ?c) = _ -> _ =>
        generalize (outcome m : success_or_value_error c); generalize c
    end;
    let c := fresh "c" in
    let Hc := fresh "Hc" in
    intros c Hc [= <-]; apply tally_counted_as, Hc ].

Lemma run_shallow_tuple_case_counted :
  forall s tc s', run_shallow_tuple_case s tc = inr s' -> counted_as (eq "ValueError") s s'.
Proof.
  case_counted run_shallow_tuple_case_tally parse_message_shallow_tuple_exc
               classify_to_pair shallow_exc_outcome.
Qed.

Lemma run_deep_tuple_case_counted :
  forall s tc s', run_deep_tuple_case s tc = inr s' -> counted_as (eq "ValueError") s s'.
Proof.
  case_counted run_deep_tuple_case_tally process_batch_deep_tuple_exc
               classify_to_pair deep_exc_outcome.
Qed.

Lemma run_shallow_union_case_counted :
  forall s tc s', run_shallow_union_case s tc = inr s' -> counted_as (eq "ValueError") s s'.
Proof.
  case_counted run_shallow_union_case_tally parse_message_shallow_union_exc
               classify_to_union shallow_exc_outcome.
Qed.

Lemma run_deep_union_case_counted :
  forall s tc s', run_deep_union_case s tc = inr s' -> counted_as (eq "ValueError") s s'.
Proof.
  case_counted run_deep_union_case_tally process_batch_deep_union_exc
               classify_to_union deep_exc_outcome.
Qed.

Lemma counted_one_name (allowed : string -> Prop) (s s' : Results) :
  counted_as allowed s s' -> one_name_per_failure s -> one_name_per_failure s'.
Proof.
  intros [-> | (name & _ & ->)] Hs;
    [apply one_name_count_success | apply one_name_count_failure]; exact Hs.
Qed.

Lemma counted_names (allowed : string -> Prop) (s s' : Results) :
  counted_as allowed s s' -> Forall allowed (errors s) -> Forall allowed (errors s').
Proof.
  intros [-> | (name & Hname & ->)] Hs; [exact Hs|].
  unfold count_failure. cbn [errors]. apply Forall_app. split; [exact Hs|].
  constructor; [exact Hname | constructor].
Qed.

(** X5.  A runner records exactly one error name per failure: the list of
    names is as long as the failure count, for the Raising runners on every
    batch and for the others whenever they return. *)
Theorem one_error_name_per_failure (test_cases : list PyVal) :
  one_name_per_failure (run_shallow_exc test_cases) /\
  one_name_per_failure (run_deep_exc test_cases) /\
  (forall r, run_shallow_tuple test_cases = inr r -> one_name_per_failure r) /\
  (forall r, run_deep_tuple test_cases = inr r -> one_name_per_failure r) /\
  (forall r, run_shallow_union test_cases = inr r -> one_name_per_failure r) /\
  (forall r, run_deep_union test_cases = inr r -> one_name_per_failure r).
Proof.
  assert (H0 : one_name_per_failure initial_results) by reflexivity.
  repeat split.
  - unfold run_shallow_exc. apply (fold_left_keeps one_name_per_failure); [|exact H0].
    intros s x. apply (counted_one_name _ _ _ (run_shallow_exc_case_counted s x)).
  - unfold run_deep_exc. apply (fold_left_keeps one_name_per_failure); [|exact H0].
    intros s x. apply (counted_one_name _ _ _ (run_deep_exc_case_counted s x)).
  - intros r. apply (for_each_keeps one_name_per_failure); [|exact H0].
    intros s x s' Hs Hx. apply (counted_one_name _ _ _ (run_shallow_tuple_case_counted _ _ _ Hx) Hs).
  - intros r. apply (for_each_keeps one_name_per_failure); [|exact H0].
    intros s x s' Hs Hx. apply (counted_one_name _ _ _ (run_deep_tuple_case_counted _ _ _ Hx) Hs).
  - intros r. apply (for_each_keeps one_name_per_failure); [|exact H0].
    intros s x s' Hs Hx. apply (counted_one_name _ _ _ (run_shallow_union_case_counted _ _ _ Hx) Hs).
  - intros r. apply (for_each_keeps one_name_per_failure); [|exact H0].
    intros s x s' Hs Hx. apply (counted_one_name _ _ _ (run_deep_union_case_counted _ _ _ Hx) Hs).
Qed.

(** X6.  The Paired-Return and Tagged-Union runners only ever record the
    name ValueError; the Raising runners can record KeyError and TypeError
    as well, from the lookup of the message, and nothing else. *)
Theorem recorded_error_names (test_cases : list PyVal) :
  Forall lookup_or_value_error (errors (run_shallow_exc test_cases)) /\
  Forall lookup_or_value_error (errors (run_deep_exc test_cases)) /\
  (forall r, run_shallow_tuple test_cases = inr r -> Forall (eq "ValueError") (errors r)) /\
  (forall r, run_deep_tuple test_cases = inr r -> Forall (eq "ValueError") (errors r)) /\
  (forall r, run_shallow_union test_cases = inr r -> Forall (eq "ValueError") (errors r)) /\
  (forall r, run_deep_union test_cases = inr r -> Forall (eq "ValueError") (errors r)).
Proof.
  repeat split.
  - unfold run_shallow_exc.
    apply (fold_left_keeps (fun r => Forall lookup_or_value_error (errors r)));
      [|constructor].
    intros s x. apply (counted_names _ _ _ (run_shallow_exc_case_counted s x)).
  - unfold run_deep_exc.
    apply (fold_left_keeps (fun r => Forall lookup_or_value_error (errors r)));
      [|constructor].
    intros s x. apply (counted_names _ _ _ (run_deep_exc_case_counted s x)).
  - intros r. apply (for_each_keeps (fun r => Forall (eq "ValueError") (errors r)));
      [|constructor].
    intros s x s' Hs Hx. apply (counted_names _ _ _ (run_shallow_tuple_case_counted _ _ _ Hx) Hs).
  - intros r. apply (for_each_keeps (fun r => Forall (eq "ValueError") (errors r)));
      [|constructor].
    intros s x s' Hs Hx. apply (counted_names _ _ _ (run_deep_tuple_case_counted _ _ _ Hx) Hs).
  - intros r. apply (for_each_keeps (fun r => Forall (eq "ValueError") (errors r)));
      [|constructor].
    intros s x s' Hs Hx. apply (counted_names _ _ _ (run_shallow_union_case_counted _ _ _ Hx) Hs).
  - intros r. apply (for_each_keeps (fun r => Forall (eq "ValueError") (errors r)));
      [|constructor].
    intros s x s' Hs Hx. apply (counted_names _ _ _ (run_deep_union_case_counted _ _ _ Hx) Hs).
Qed.

(** ** The two depths *)

(** X4.  On a message from which the shallow extraction has no quote
    character to strip, the shallow and the deep entry point of each
    strategy return the same result. *)
Theorem depth_changes_nothing_without_quotes (message : PyVal) :
  strip_quotes (squeeze (extracted_text message)) = squeeze (extracted_text message) ->
  parse_message_shallow_exc message = process_batch_deep_exc message /\
  parse_message_shallow_tuple message = process_batch_deep_tuple message /\
  parse_message_shallow_union message = process_batch_deep_union message.
Proof.
  intros H. split.
  - apply depths_agree_without_quotes, H.
  - apply depths_agree_in_every_strategy, H.
Qed.

Lemma depth_changes_nothing_without_quotes_witness :
  parse_message_shallow_exc message_with_spaced_timestamp
    = process_batch_deep_exc message_with_spaced_timestamp /\
  parse_message_shallow_tuple message_with_spaced_timestamp
    = process_batch_deep_tuple message_with_spaced_timestamp /\
  parse_message_shallow_union message_with_spaced_timestamp
    = process_batch_deep_union message_with_spaced_timestamp.
Proof.
  apply (depth_changes_nothing_without_quotes message_with_spaced_timestamp).
  vm_compute. reflexivity.
Defined.

(** ** What the validation is given *)












Set Warnings "-clear-no-such-hyp".

(** ** The extracted statistics *)

Lemma record_entry_value (func_patterns : list string)
    (times : gmap string FunctionTimes) (entry : StatsEntry) :
  record_entry func_patterns times entry
  = inr (match first_match func_patterns entry with
         | Some pattern => <[pattern := recorded entry]> times
         | None => times
         end).
Proof.
  unfold record_entry, first_match. cbv zeta.
  destruct (find _ func_patterns); [|reflexivity].
  rewrite !percall_value. reflexivity.
Qed.

Lemma for_each_record_entry (func_patterns : list string) (stats : list StatsEntry)
    (times : gmap string FunctionTimes) :
  for_each (record_entry func_patterns) stats times
  = inr (fold_left (book func_patterns) stats times).
Proof.
  apply for_each_total. apply Forall_forall. intros entry _ s.
  apply record_entry_value.
Qed.

Lemma extract_function_stats_value (stats : list StatsEntry) (func_patterns : list string) :
  extract_function_stats stats func_patterns
  = inr (fold_left (book func_patterns) stats (zeroed func_patterns)).
Proof. unfold extract_function_stats. cbv zeta. apply for_each_record_entry. Qed.

Lemma dom_zeroed_from (func_patterns : list string) (times : gmap string FunctionTimes) :
  dom (fold_left (fun acc func_pattern => <[func_pattern := no_calls]> acc)
                 func_patterns times)
  = list_to_set func_patterns ∪ dom times.
Proof.
  revert times. induction func_patterns as [|p ps IH]; intros times; cbn [fold_left].
  - set_solver.
  - rewrite IH, dom_insert_L. set_solver.
Qed.

Lemma dom_zeroed (func_patterns : list string) :
  dom (zeroed func_patterns) = list_to_set func_patterns.
Proof. unfold zeroed. rewrite dom_zeroed_from. set_solver. Qed.

Lemma first_match_listed (func_patterns : list string) (entry : StatsEntry) (p : string) :
  first_match func_patterns entry = Some p ->
  p ∈ func_patterns /\ Str.contains p (snd (func entry)) = true.
Proof.
  unfold first_match. intros H. apply find_some in H as [Hin Hp].
  split; [apply list_elem_of_In, Hin | exact Hp].
Qed.

Lemma dom_book (func_patterns : list string) (times : gmap string FunctionTimes)
    (entry : StatsEntry) :
  dom times = list_to_set func_patterns ->
  dom (book func_patterns times entry) = list_to_set func_patterns.
Proof.
  intros Hdom. unfold book. destruct (first_match func_patterns entry) as [p|] eqn:Hp;
    [|exact Hdom].
  apply first_match_listed in Hp as [Hin _]. rewrite dom_insert_L, Hdom. set_solver.
Qed.

Lemma dom_fold_book (func_patterns : list string) (stats : list StatsEntry) :
  forall times,
    dom times = list_to_set func_patterns ->
    dom (fold_left (book func_patterns) stats times) = list_to_set func_patterns.
Proof.
  induction stats as [|entry stats IH]; intros times Hdom; cbn [fold_left];
    [exact Hdom|].
  apply IH, dom_book, Hdom.
Qed.

(** X8.  The extraction returns a dictionary whose keys are exactly the
    patterns asked for, whatever the profiler's table holds. *)
Theorem extracted_keys_are_the_patterns (stats : list StatsEntry) (func_patterns : list string) :
  exists function_times,
    extract_function_stats stats func_patterns = inr function_times /\
    dom function_times = list_to_set func_patterns.
Proof.
  eexists. split; [apply extract_function_stats_value|].
  apply dom_fold_book, dom_zeroed.
Qed.

Lemma zeroed_lookup_from (func_patterns : list string) (times : gmap string FunctionTimes)
    (p : string) :
  p ∈ func_patterns \/ times !! p = Some no_calls ->
  fold_left (fun acc func_pattern => <[func_pattern := no_calls]> acc) func_patterns times
    !! p = Some no_calls.
Proof.
  revert times. induction func_patterns as [|q ps IH]; intros times H; cbn [fold_left].
  - destruct H as [H|H]; [inversion H | exact H].
  - apply IH. destruct (decide (q = p)) as [->|Hne].
    + right. apply lookup_insert_eq.
    + destruct H as [H|H].
      * left. apply elem_of_cons in H as [H|H]; [congruence | exact H].
      * right. rewrite lookup_insert_ne; [exact H | exact Hne].
Qed.

Lemma zeroed_lookup (func_patterns : list string) (p : string) :
  p ∈ func_patterns -> zeroed func_patterns !! p = Some no_calls.
Proof. intros H. apply zeroed_lookup_from. left. exact H. Qed.

Lemma fold_book_untouched (func_patterns : list string) (stats : list StatsEntry)
    (p : string) :
  Forall (fun entry => first_match func_patterns entry <> Some p) stats ->
  forall times, fold_left (book func_patterns) stats times !! p = times !! p.
Proof.
  induction 1 as [|entry stats Hentry _ IH]; intros times; cbn [fold_left];
    [reflexivity|].
  rewrite IH. unfold book. destruct (first_match func_patterns entry) as [q|];
    [|reflexivity].
  apply lookup_insert_ne. congruence.
Qed.

(** X9.  A pattern that occurs in no function name of the profiler's table
    keeps its all-zero entry. *)
Theorem unmatched_pattern_stays_zero (stats : list StatsEntry) (func_patterns : list string)
    (p : string) :
  p ∈ func_patterns ->
  Forall (fun entry => Str.contains p (snd (func entry)) = false) stats ->
  exists function_times,
    extract_function_stats stats func_patterns = inr function_times /\
    function_times !! p = Some no_calls.
Proof.
  intros Hin Hnone. eexists. split; [apply extract_function_stats_value|].
  rewrite fold_book_untouched; [apply zeroed_lookup, Hin|].
  eapply Forall_impl; [exact Hnone|]. intros entry Hentry Hp.
  apply first_match_listed in Hp as [_ Hp]. congruence.
Qed.

Lemma unmatched_pattern_stays_zero_witness :
  exists function_times,
    extract_function_stats [first_row; third_row] shallow_exc_patterns = inr function_times /\
    function_times !! "parse_datetime_shallow_exc" = Some no_calls.
Proof.
  apply (unmatched_pattern_stays_zero [first_row; third_row] shallow_exc_patterns).
  - apply list_elem_of_In. right. left. reflexivity.
  - repeat constructor.
Defined.


(** X10.  When several rows of the profiler's table are booked under the
    same pattern, the entry holds the figures of the last such row alone:
    rows are not added up. *)
Theorem last_matching_row_wins (before after : list StatsEntry) (entry : StatsEntry)
    (func_patterns : list string) (p : string) :
  first_match func_patterns entry = Some p ->
  Forall (fun later => first_match func_patterns later <> Some p) after ->
  exists function_times,
    extract_function_stats (before ++ entry :: after) func_patterns = inr function_times /\
    function_times !! p = Some (recorded entry).
Proof.
  intros Hp Hafter. eexists. split; [apply extract_function_stats_value|].
  rewrite fold_left_app. cbn [fold_left].
  rewrite (fold_book_untouched _ _ _ Hafter). unfold book at 1. rewrite Hp.
  apply lookup_insert_eq.
Qed.

Lemma last_matching_row_wins_witness :
  exists function_times,
    extract_function_stats ([first_row] ++ second_row :: [third_row]) shallow_exc_patterns
    = inr function_times /\
    function_times !! "validate_format_shallow_exc" = Some (recorded second_row).
Proof.
  apply (last_matching_row_wins [first_row] [third_row] second_row shallow_exc_patterns).
  - reflexivity.
  - repeat constructor. discriminate.
Defined.


(** ** The comparison table *)

Lemma truediv_float_nonzero (a b : Q) :
  ~ (b == 0)%Q -> truediv_float a b = inr (a / b)%Q.
Proof.
  intros Hb. unfold truediv_float. destruct (Qeq_bool b 0) eqn:Hz; [|reflexivity].
  apply Qeq_bool_iff in Hz. contradiction.
Qed.

Lemma truediv_float_zero (a b : Q) :
  (b == 0)%Q -> truediv_float a b = inl (ZeroDivisionError "float division by zero").
Proof.
  intros Hb. unfold truediv_float. apply Qeq_bool_iff in Hb. rewrite Hb. reflexivity.
Qed.

Lemma comparison_data_value (results : gmap string ProfileData)
    (d1 d2 d3 d4 d5 d6 : ProfileData) :
  six_runs results d1 d2 d3 d4 d5 d6 ->
  comparison_data results
  = inr [("Exception Handling", "Shallow", d1, total_time d1);
         ("Exception Handling", "Deep", d2, total_time d2);
         ("Union (Result | Exception)", "Shallow", d3, total_time d1);
         ("Union (Result | Exception)", "Deep", d4, total_time d2);
         ("Tuple (Result, Error)", "Shallow", d5, total_time d1);
         ("Tuple (Result, Error)", "Deep", d6, total_time d2)].
Proof.
  intros (H1 & H2 & H3 & H4 & H5 & H6). unfold comparison_data, results_getitem.
  rewrite H1, H2, H3, H4, H5, H6. reflexivity.
Qed.




(** X12.  When one of the six runs took zero time, the comparison table
    stops with a ZeroDivisionError before its six lines are out. *)
Theorem zero_elapsed_time_stops_the_table (results : gmap string ProfileData)
    (d1 d2 d3 d4 d5 d6 : ProfileData) :
  six_runs results d1 d2 d3 d4 d5 d6 ->
  Exists (fun d => (total_time d == 0)%Q) [d1; d2; d3; d4; d5; d6] ->
  exists rows,
    comparison_table results
    = (rows, Some (ZeroDivisionError "float division by zero")) /\
    (length rows < 6)%nat.
Proof.
  intros Hruns Hz. unfold comparison_table.
  rewrite (comparison_data_value _ _ _ _ _ _ _ Hruns).
  cbn [comparison_rows].
  destruct (Qeq_dec (total_time d1) 0) as [Z1|N1];
    [rewrite (truediv_float_zero _ _ Z1); eexists; split; [reflexivity|cbn; lia]
    |rewrite (truediv_float_nonzero _ _ N1)].
  destruct (Qeq_dec (total_time d2) 0) as [Z2|N2];
    [rewrite (truediv_float_zero _ _ Z2); eexists; split; [reflexivity|cbn; lia]
    |rewrite (truediv_float_nonzero _ _ N2)].
  destruct (Qeq_dec (total_time d3) 0) as [Z3|N3];
    [rewrite (truediv_float_zero _ _ Z3); eexists; split; [reflexivity|cbn; lia]
    |rewrite (truediv_float_nonzero _ _ N3)].
  destruct (Qeq_dec (total_time d4) 0) as [Z4|N4];
    [rewrite (truediv_float_zero _ _ Z4); eexists; split; [reflexivity|cbn; lia]
    |rewrite (truediv_float_nonzero _ _ N4)].
  destruct (Qeq_dec (total_time d5) 0) as [Z5|N5];
    [rewrite (truediv_float_zero _ _ Z5); eexists; split; [reflexivity|cbn; lia]
    |rewrite (truediv_float_nonzero _ _ N5)].
  destruct (Qeq_dec (total_time d6) 0) as [Z6|N6];
    [rewrite (truediv_float_zero _ _ Z6); eexists; split; [reflexivity|cbn; lia]
    |].
  exfalso. repeat (apply Exists_cons in Hz as [Hz|Hz]; [contradiction|]).
  inversion Hz.
Qed.

Lemma zero_elapsed_time_stops_the_table_witness :
  exists rows,
    comparison_table (results_of 4 6 0 3 1 2)
    = (rows, Some (ZeroDivisionError "float division by zero")) /\
    (length rows < 6)%nat.
Proof.
  apply (zero_elapsed_time_stops_the_table (results_of 4 6 0 3 1 2)
           (run_taking 4) (run_taking 6) (run_taking 0) (run_taking 3)
           (run_taking 1) (run_taking 2)).
  - repeat split; vm_compute; reflexivity.
  - right. right. left. reflexivity.
Defined.

Import test_generator.

Lemma cases_in_order_length (draws : nat -> nat) : length (cases_in_order draws) = 1000%nat.
Proof. unfold cases_in_order. rewrite !length_app, !length_map, !length_seq. reflexivity. Qed.

(** ** The generated corpus *)

Lemma sum_of_ones {A : Type} (l : list A) (start : Z) :
  fold_left Z.add (map (fun _ => 1%Z) l) start = (start + Z.of_nat (length l))%Z.
Proof.
  revert start. induction l as [|x l IH]; intros start; cbn [map fold_left length].
  - lia.
  - rewrite IH. lia.
Qed.

Lemma valid_count_length (test_cases : list (list (string * PyVal))) :
  valid_count test_cases
  = Z.of_nat (length (List.filter
                        (fun tc => py_truthy (dict_get tc "expected_valid" (PyBool false)))
                        test_cases)).
Proof. unfold valid_count. rewrite sum_of_ones. lia. Qed.

Lemma filter_length_rearranged {A : Type} (p : A -> bool) (l l' : list A) :
  Permutation l l' -> length (List.filter p l) = length (List.filter p l').
Proof.
  induction 1 as [|x l l' _ IH|x y l|l l' l'' _ IH1 _ IH2]; cbn [List.filter].
  - reflexivity.
  - destruct (p x); cbn [length]; rewrite IH; reflexivity.
  - destruct (p x), (p y); reflexivity.
  - rewrite IH1. exact IH2.
Qed.

Lemma filter_map_all {A B : Type} (p : B -> bool) (f : A -> B) (l : list A) :
  (forall x, p (f x) = true) -> List.filter p (map f l) = map f l.
Proof.
  intros H. induction l as [|x l IH]; [reflexivity|].
  cbn [map List.filter]. rewrite H, IH. reflexivity.
Qed.

Lemma filter_map_none {A B : Type} (p : B -> bool) (f : A -> B) (l : list A) :
  (forall x, p (f x) = false) -> List.filter p (map f l) = [].
Proof.
  intros H. induction l as [|x l IH]; [reflexivity|].
  cbn [map List.filter]. rewrite H, IH. reflexivity.
Qed.

Lemma valid_count_in_order (draws : nat -> nat) :
  valid_count (cases_in_order draws) = 200%Z.
Proof.
  rewrite valid_count_length. unfold cases_in_order.
  rewrite !List.filter_app.
  rewrite (filter_map_all _ (valid_case draws)) by reflexivity.
  rewrite (filter_map_none _ missing_field_case) by reflexivity.
  rewrite (filter_map_none _ (invalid_format_case draws)) by reflexivity.
  rewrite (filter_map_none _ (type_error_case draws)) by reflexivity.
  rewrite (filter_map_none _ (malformed_case draws)) by reflexivity.
  rewrite !length_app, length_map, length_seq. reflexivity.
Qed.

(** X13.  Whatever the random draws and the shuffle, the generator returns
    1000 test cases, and the statistics of [save_test_cases] count 200
    valid cases and 800 error cases among them. *)
Theorem generated_corpus_counts (draws : nat -> nat)
    (shuffle : list (list (string * PyVal)) -> list (list (string * PyVal))) :
  rearranges shuffle ->
  length (generate_test_cases draws shuffle) = 1000%nat /\
  valid_count (generate_test_cases draws shuffle) = 200%Z /\
  error_count (generate_test_cases draws shuffle) = 800%Z.
Proof.
  intros Hshuffle. unfold generate_test_cases, error_count.
  pose proof (Hshuffle (cases_in_order draws)) as Hperm.
  assert (Hlen : length (shuffle (cases_in_order draws)) = 1000%nat).
  { rewrite <- (Permutation_length Hperm). apply cases_in_order_length. }
  assert (Hvalid : valid_count (shuffle (cases_in_order draws)) = 200%Z).
  { rewrite valid_count_length, <- (filter_length_rearranged _ _ _ Hperm),
      <- valid_count_length. apply valid_count_in_order. }
  rewrite Hlen, Hvalid. repeat split.
Qed.

Lemma generated_corpus_counts_witness :
  length (generate_test_cases (fun i => i) (@rev _)) = 1000%nat /\
  valid_count (generate_test_cases (fun i => i) (@rev _)) = 200%Z /\
  error_count (generate_test_cases (fun i => i) (@rev _)) = 800%Z.
Proof.
  apply (generated_corpus_counts (fun i => i) (@rev _)).
  intros l. apply Permutation_rev.
Defined.

Lemma ids_in_order (draws : nat -> nat) :
  map (fun tc => dict_get tc "id" PyNone) (cases_in_order draws)
  = map (fun i => PyInt (Z.of_nat i)) (seq 0 1000).
Proof.
  unfold cases_in_order. rewrite !map_app, !map_map.
  change (seq 0 1000) with (seq 0 (200 + (200 + (200 + (200 + 200))))).
  rewrite !seq_app, !map_app. reflexivity.
Qed.

(** X14.  The ids of the generated test cases are the integers 0 to 999,
    each exactly once. *)
Theorem generated_ids_are_0_to_999 (draws : nat -> nat)
    (shuffle : list (list (string * PyVal)) -> list (list (string * PyVal))) :
  rearranges shuffle ->
  Permutation (map (fun tc => dict_get tc "id" PyNone) (generate_test_cases draws shuffle))
              (map (fun i => PyInt (Z.of_nat i)) (seq 0 1000)).
Proof.
  intros Hshuffle. rewrite <- (ids_in_order draws). unfold generate_test_cases.
  apply Permutation_map. symmetry. apply Hshuffle.
Qed.

Lemma generated_ids_are_0_to_999_witness :
  Permutation
    (map (fun tc => dict_get tc "id" PyNone) (generate_test_cases (fun i => i) (@rev _)))
    (map (fun i => PyInt (Z.of_nat i)) (seq 0 1000)).
Proof.
  apply (generated_ids_are_0_to_999 (fun i => i) (@rev _)).
  intros l. apply Permutation_rev.
Defined.

(** ** The pipelines on the generated corpus *)

(** Only the timestamp field of a mapping matters. *)
Lemma extracted_text_by_timestamp (v : PyVal) (rest : list (string * PyVal)) :
  extracted_text (PyDict (("timestamp", v) :: rest))
  = extracted_text (PyDict [("timestamp", v)]).
Proof. reflexivity. Qed.

Lemma shallow_by_timestamp (v : PyVal) (rest : list (string * PyVal)) :
  parse_message_shallow_exc (PyDict (("timestamp", v) :: rest))
  = parse_message_shallow_exc (PyDict [("timestamp", v)]).
Proof. rewrite !parse_message_shallow_exc_text, extracted_text_by_timestamp. reflexivity. Qed.

Lemma deep_by_timestamp (v : PyVal) (rest : list (string * PyVal)) :
  process_batch_deep_exc (PyDict (("timestamp", v) :: rest))
  = process_batch_deep_exc (PyDict [("timestamp", v)]).
Proof. rewrite !process_batch_deep_exc_text, extracted_text_by_timestamp. reflexivity. Qed.

Lemma choice_in {A : Type} (draw : nat) (seq : list A) (default : A) :
  seq <> [] -> In (choice draw seq default) seq.
Proof.
  intros Hne. unfold choice. apply nth_In. apply Nat.mod_upper_bound.
  destruct seq; [contradiction | discriminate].
Qed.

(** The four literals, entry by entry. *)
Lemma valid_datetimes_outcomes :
  forallb (fun dt =>
             is_success (classify_exc (parse_message_shallow_exc
                                         (PyDict [("timestamp", PyStr dt)])))
             && is_success (classify_exc (process_batch_deep_exc
                                            (PyDict [("timestamp", PyStr dt)]))))
          valid_datetimes = true.
Proof. vm_compute. reflexivity. Qed.

Lemma invalid_formats_outcomes :
  forallb (fun dt =>
             Bool.eqb (is_success (classify_exc (parse_message_shallow_exc
                                                   (PyDict [("timestamp", PyStr dt)]))))
                      (String.eqb dt one_digit_text)
             && Bool.eqb (is_success (classify_exc (process_batch_deep_exc
                                                      (PyDict [("timestamp", PyStr dt)]))))
                         (String.eqb dt one_digit_text))
          invalid_formats = true.
Proof. vm_compute. reflexivity. Qed.

Lemma invalid_types_outcomes :
  forallb (fun v =>
             negb (is_success (classify_exc (parse_message_shallow_exc
                                               (PyDict [("timestamp", v)]))))
             && negb (is_success (classify_exc (process_batch_deep_exc
                                                  (PyDict [("timestamp", v)]))))
             && negb (match v with PyStr s => String.eqb s one_digit_text | _ => false end))
          invalid_types = true.
Proof. vm_compute. reflexivity. Qed.

Lemma malformed_messages_outcomes :
  forallb (fun m =>
             negb (is_success (classify_exc (parse_message_shallow_exc m)))
             && negb (is_success (classify_exc (process_batch_deep_exc m)))
             && negb (has_one_digit_text m))
          malformed_messages = true.
Proof. vm_compute. reflexivity. Qed.

Lemma invalid_formats_index :
  forallb (fun k => Bool.eqb (String.eqb (nth k invalid_formats EmptyString) one_digit_text)
                             (k =? 10)%nat)
          (seq 0 15) = true.
Proof. vm_compute. reflexivity. Qed.

Section GeneratedCases.

Variable draws : nat -> nat.

Lemma outcome_of_bool (c : Classification) (b : bool) :
  success_or_value_error c -> is_success c = b ->
  c = if b then Success else Failure "ValueError".
Proof. intros [-> | ->] <-; reflexivity. Qed.

Lemma valid_case_as_expected (i : nat) : as_expected (valid_case draws i).
Proof.
  unfold as_expected, expected_outcome.
  change (dict_get (valid_case draws i) "message" PyNone)
    with (PyDict [("timestamp", PyStr (choice (draws i) valid_datetimes EmptyString));
                  ("user", PyStr (user i)); ("data", PyStr (content i))]).
  change (py_truthy (dict_get (valid_case draws i) "expected_valid" (PyBool false)))
    with true.
  rewrite shallow_by_timestamp, deep_by_timestamp. cbn [orb].
  assert (Hin : In (choice (draws i) valid_datetimes EmptyString) valid_datetimes)
    by (apply choice_in; discriminate).
  pose proof (proj1 (forallb_forall _ _) valid_datetimes_outcomes _ Hin) as H.
  cbv beta in H.
  apply andb_prop in H as [Hs Hd].
  split; apply (outcome_of_bool _ true); try assumption.
  - apply shallow_exc_outcome.
  - apply deep_exc_outcome.
Qed.

Lemma missing_field_case_as_expected (i : nat) : as_expected (missing_field_case i).
Proof.
  unfold as_expected.
  change (expected_outcome (missing_field_case i)) with (Failure "ValueError").
  change (dict_get (missing_field_case i) "message" PyNone)
    with (PyDict [("user", PyStr (user i)); ("data", PyStr (content i))]).
  rewrite parse_message_shallow_exc_text, process_batch_deep_exc_text.
  rewrite blank_extracted_text by (left; reflexivity).
  split; reflexivity.
Qed.

Lemma invalid_format_case_as_expected (i : nat) : as_expected (invalid_format_case draws i).
Proof.
  unfold as_expected.
  change (dict_get (invalid_format_case draws i) "message" PyNone)
    with (PyDict [("timestamp", PyStr (choice (draws i) invalid_formats EmptyString));
                  ("user", PyStr (user i)); ("data", PyStr (content i))]).
  change (expected_outcome (invalid_format_case draws i))
    with (if String.eqb (choice (draws i) invalid_formats EmptyString) one_digit_text
          then Success else Failure "ValueError").
  rewrite shallow_by_timestamp, deep_by_timestamp.
  assert (Hin : In (choice (draws i) invalid_formats EmptyString) invalid_formats)
    by (apply choice_in; discriminate).
  pose proof (proj1 (forallb_forall _ _) invalid_formats_outcomes _ Hin) as H.
  cbv beta in H. apply andb_prop in H as [Hs Hd].
  apply eqb_prop in Hs, Hd.
  split; apply outcome_of_bool; try assumption.
  - apply shallow_exc_outcome.
  - apply deep_exc_outcome.
Qed.

Lemma type_error_case_as_expected (i : nat) : as_expected (type_error_case draws i).
Proof.
  unfold as_expected.
  change (dict_get (type_error_case draws i) "message" PyNone)
    with (PyDict [("timestamp", choice (draws i) invalid_types PyNone);
                  ("user", PyStr (user i)); ("data", PyStr (content i))]).
  change (expected_outcome (type_error_case draws i))
    with (if match choice (draws i) invalid_types PyNone with
             | PyStr s => String.eqb s one_digit_text
             | _ => false
             end
          then Success else Failure "ValueError").
  rewrite shallow_by_timestamp, deep_by_timestamp.
  assert (Hin : In (choice (draws i) invalid_types PyNone) invalid_types)
    by (apply choice_in; discriminate).
  pose proof (proj1 (forallb_forall _ _) invalid_types_outcomes _ Hin) as H.
  cbv beta in H. apply andb_prop in H as [H Hlabel]. apply andb_prop in H as [Hs Hd].
  apply negb_true_iff in Hs, Hd, Hlabel. rewrite Hlabel.
  split; apply (outcome_of_bool _ false); try assumption.
  - apply shallow_exc_outcome.
  - apply deep_exc_outcome.
Qed.

Lemma malformed_case_as_expected (i : nat) : as_expected (malformed_case draws i).
Proof.
  unfold as_expected.
  change (dict_get (malformed_case draws i) "message" PyNone)
    with (choice (draws i) malformed_messages PyNone).
  change (expected_outcome (malformed_case draws i))
    with (if has_one_digit_text (choice (draws i) malformed_messages PyNone)
          then Success else Failure "ValueError").
  assert (Hin : In (choice (draws i) malformed_messages PyNone) malformed_messages)
    by (apply choice_in; discriminate).
  pose proof (proj1 (forallb_forall _ _) malformed_messages_outcomes _ Hin) as H.
  cbv beta in H. apply andb_prop in H as [H Hlabel]. apply andb_prop in H as [Hs Hd].
  apply negb_true_iff in Hs, Hd, Hlabel. rewrite Hlabel.
  split; apply (outcome_of_bool _ false); try assumption.
  - apply shallow_exc_outcome.
  - apply deep_exc_outcome.
Qed.

Lemma Forall_map_all {A B : Type} (P : B -> Prop) (f : A -> B) (l : list A) :
  (forall x, P (f x)) -> Forall P (map f l).
Proof. intros H. induction l; constructor; [apply H | assumption]. Qed.

Lemma Forall_map_all' {A B : Type} (P : B -> Prop) (f : A -> B) (l : list A) :
  Forall (fun x => P (f x)) l -> Forall P (map f l).
Proof. induction 1; constructor; assumption. Qed.

Lemma cases_in_order_as_expected : Forall as_expected (cases_in_order draws).
Proof.
  unfold cases_in_order. repeat (apply Forall_app; split).
  - apply Forall_map_all, valid_case_as_expected.
  - apply Forall_map_all, missing_field_case_as_expected.
  - apply Forall_map_all, invalid_format_case_as_expected.
  - apply Forall_map_all, type_error_case_as_expected.
  - apply Forall_map_all, malformed_case_as_expected.
Qed.

End GeneratedCases.

(** X15.  On every generated test case the Raising pipeline of either depth
    succeeds when the case is labelled valid or carries the one-digit text
    2024-1-5 10:30:45 from [invalid_formats], and fails with a ValueError
    otherwise. *)
Theorem generated_cases_outcomes (draws : nat -> nat)
    (shuffle : list (list (string * PyVal)) -> list (list (string * PyVal))) :
  rearranges shuffle ->
  Forall as_expected (generate_test_cases draws shuffle).
Proof.
  intros Hshuffle. unfold generate_test_cases.
  apply (Permutation_Forall (Hshuffle (cases_in_order draws))).
  apply cases_in_order_as_expected.
Qed.

Lemma generated_cases_outcomes_witness :
  Forall as_expected (generate_test_cases (fun i => i) (@rev _)).
Proof.
  apply (generated_cases_outcomes (fun i => i) (@rev _)).
  intros l. apply Permutation_rev.
Defined.

(** ** The runners on the generated corpus *)

Lemma run_shallow_exc_case_succeeds (s : Results) (test_case : PyVal) :
  success (run_shallow_exc_case s test_case)
  = (success s + if succeeds_shallow test_case then 1 else 0)%Z.
Proof.
  unfold run_shallow_exc_case, succeeds_shallow. destruct (bind _ _); cbn [success count_success count_failure]; lia.
Qed.

Lemma run_deep_exc_case_succeeds (s : Results) (test_case : PyVal) :
  success (run_deep_exc_case s test_case)
  = (success s + if succeeds_deep test_case then 1 else 0)%Z.
Proof.
  unfold run_deep_exc_case, succeeds_deep. destruct (bind _ _); cbn [success count_success count_failure]; lia.
Qed.

Lemma fold_left_successes {X : Type} (step : Results -> X -> Results) (p : X -> bool) :
  (forall s x, success (step s x) = (success s + if p x then 1 else 0)%Z) ->
  forall xs s,
    success (fold_left step xs s)
    = (success s + Z.of_nat (length (List.filter p xs)))%Z.
Proof.
  intros Hstep xs. induction xs as [|x xs IH]; intros s; cbn [fold_left List.filter].
  - cbn [length]. lia.
  - rewrite IH, Hstep. destruct (p x); cbn [length]; lia.
Qed.

Lemma succeeds_shallow_record (test_case : list (string * PyVal)) (message : PyVal) :
  dict_lookup test_case "message" = Some message ->
  succeeds_shallow (PyDict test_case)
  = is_success (classify_exc (parse_message_shallow_exc message)).
Proof.
  intros H. unfold succeeds_shallow. cbn [py_getitem]. rewrite H. unfold bind, ret.
  destruct (parse_message_shallow_exc message); reflexivity.
Qed.

Lemma succeeds_deep_record (test_case : list (string * PyVal)) (message : PyVal) :
  dict_lookup test_case "message" = Some message ->
  succeeds_deep (PyDict test_case)
  = is_success (classify_exc (process_batch_deep_exc message)).
Proof.
  intros H. unfold succeeds_deep. cbn [py_getitem]. rewrite H. unfold bind, ret.
  destruct (process_batch_deep_exc message); reflexivity.
Qed.

Lemma filter_map_count {A B : Type} (p : B -> bool) (f : A -> B) (q : A -> bool)
    (l : list A) :
  (forall x, p (f x) = q x) ->
  length (List.filter p (map f l)) = length (List.filter q l).
Proof.
  intros H. induction l as [|x l IH]; [reflexivity|].
  cbn [map List.filter]. rewrite H. destruct (q x); cbn [length]; rewrite IH; reflexivity.
Qed.

Lemma filter_true_length {A : Type} (l : list A) :
  length (List.filter (fun _ => true) l) = length l.
Proof. induction l as [|x l IH]; [reflexivity|]. cbn [List.filter length]. rewrite IH. reflexivity. Qed.

Lemma filter_false_length {A : Type} (l : list A) :
  length (List.filter (fun _ => false) l) = 0%nat.
Proof. induction l as [|x l IH]; [reflexivity | exact IH]. Qed.

Lemma succeeds_as_expected (test_case : list (string * PyVal)) :
  has_message_field test_case -> as_expected test_case ->
  succeeds_shallow (PyDict test_case) = is_success (expected_outcome test_case) /\
  succeeds_deep (PyDict test_case) = is_success (expected_outcome test_case).
Proof.
  intros [m Hm] [Hs Hd].
  assert (Hget : dict_get test_case "message" PyNone = m)
    by (unfold dict_get; rewrite Hm; reflexivity).
  rewrite Hget in Hs, Hd.
  rewrite (succeeds_shallow_record _ _ Hm), (succeeds_deep_record _ _ Hm), Hs, Hd.
  split; reflexivity.
Qed.

Section GeneratedBatch.

Variable draws : nat -> nat.

Lemma invalid_format_expected (i : nat) :
  is_success (expected_outcome (invalid_format_case draws i)) = (draws i mod 15 =? 10)%nat.
Proof.
  change (expected_outcome (invalid_format_case draws i))
    with (if String.eqb (nth (draws i mod 15) invalid_formats EmptyString) one_digit_text
          then Success else Failure "ValueError").
  assert (Hin : In (draws i mod 15) (seq 0 15)).
  { apply in_seq. split; [lia|]. apply Nat.mod_upper_bound. discriminate. }
  pose proof (proj1 (forallb_forall _ _) invalid_formats_index _ Hin) as H.
  cbv beta in H. apply eqb_prop in H. rewrite H.
  destruct (draws i mod 15 =? 10)%nat; reflexivity.
Qed.

Lemma type_error_expected (i : nat) :
  is_success (expected_outcome (type_error_case draws i)) = false.
Proof.
  change (expected_outcome (type_error_case draws i))
    with (if match choice (draws i) invalid_types PyNone with
             | PyStr s => String.eqb s one_digit_text
             | _ => false
             end
          then Success else Failure "ValueError").
  assert (Hin : In (choice (draws i) invalid_types PyNone) invalid_types)
    by (apply choice_in; discriminate).
  pose proof (proj1 (forallb_forall _ _) invalid_types_outcomes _ Hin) as H.
  cbv beta in H. apply andb_prop in H as [_ Hlabel].
  apply negb_true_iff in Hlabel. rewrite Hlabel. reflexivity.
Qed.

Lemma malformed_expected (i : nat) :
  is_success (expected_outcome (malformed_case draws i)) = false.
Proof.
  change (expected_outcome (malformed_case draws i))
    with (if has_one_digit_text (choice (draws i) malformed_messages PyNone)
          then Success else Failure "ValueError").
  assert (Hin : In (choice (draws i) malformed_messages PyNone) malformed_messages)
    by (apply choice_in; discriminate).
  pose proof (proj1 (forallb_forall _ _) malformed_messages_outcomes _ Hin) as H.
  cbv beta in H. apply andb_prop in H as [_ Hlabel].
  apply negb_true_iff in Hlabel. rewrite Hlabel. reflexivity.
Qed.

Lemma cases_in_order_have_message : Forall has_message_field (cases_in_order draws).
Proof.
  unfold cases_in_order. repeat (apply Forall_app; split);
    apply Forall_map_all; intros i; eexists; reflexivity.
Qed.

Lemma successes_in_order :
  length (List.filter succeeds_shallow (loaded (cases_in_order draws)))
    = (200 + length (List.filter (fun i => (draws i mod 15 =? 10)%nat) (seq 400 200)))%nat /\
  length (List.filter succeeds_deep (loaded (cases_in_order draws)))
    = (200 + length (List.filter (fun i => (draws i mod 15 =? 10)%nat) (seq 400 200)))%nat.
Proof.
  unfold loaded, cases_in_order. rewrite !map_app, !map_map, !List.filter_app, !length_app.
  split.
  - rewrite (filter_map_count succeeds_shallow _ (fun _ => true)).
    2:{ intros i. apply (succeeds_as_expected (valid_case draws i));
          [eexists; reflexivity | apply valid_case_as_expected]. }
    rewrite (filter_map_count succeeds_shallow _ (fun _ => false)).
    2:{ intros i. apply (succeeds_as_expected (missing_field_case i));
          [eexists; reflexivity | apply missing_field_case_as_expected]. }
    rewrite (filter_map_count succeeds_shallow _ (fun i => (draws i mod 15 =? 10)%nat)).
    2:{ intros i. rewrite <- invalid_format_expected.
        apply (succeeds_as_expected (invalid_format_case draws i));
          [eexists; reflexivity | apply invalid_format_case_as_expected]. }
    rewrite (filter_map_count succeeds_shallow _ (fun _ => false)).
    2:{ intros i. rewrite <- (type_error_expected i).
        apply (succeeds_as_expected (type_error_case draws i));
          [eexists; reflexivity | apply type_error_case_as_expected]. }
    rewrite (filter_map_count succeeds_shallow _ (fun _ => false)).
    2:{ intros i. rewrite <- (malformed_expected i).
        apply (succeeds_as_expected (malformed_case draws i));
          [eexists; reflexivity | apply malformed_case_as_expected]. }
    rewrite filter_true_length, !filter_false_length, length_seq. lia.
  - rewrite (filter_map_count succeeds_deep _ (fun _ => true)).
    2:{ intros i. apply (succeeds_as_expected (valid_case draws i));
          [eexists; reflexivity | apply valid_case_as_expected]. }
    rewrite (filter_map_count succeeds_deep _ (fun _ => false)).
    2:{ intros i. apply (succeeds_as_expected (missing_field_case i));
          [eexists; reflexivity | apply missing_field_case_as_expected]. }
    rewrite (filter_map_count succeeds_deep _ (fun i => (draws i mod 15 =? 10)%nat)).
    2:{ intros i. rewrite <- invalid_format_expected.
        apply (succeeds_as_expected (invalid_format_case draws i));
          [eexists; reflexivity | apply invalid_format_case_as_expected]. }
    rewrite (filter_map_count succeeds_deep _ (fun _ => false)).
    2:{ intros i. rewrite <- (type_error_expected i).
        apply (succeeds_as_expected (type_error_case draws i));
          [eexists; reflexivity | apply type_error_case_as_expected]. }
    rewrite (filter_map_count succeeds_deep _ (fun _ => false)).
    2:{ intros i. rewrite <- (malformed_expected i).
        apply (succeeds_as_expected (malformed_case draws i));
          [eexists; reflexivity | apply malformed_case_as_expected]. }
    rewrite filter_true_length, !filter_false_length, length_seq. lia.
Qed.

End GeneratedBatch.

(** X16.  Whatever the random draws and the shuffle, the six runners return
    on the generated corpus, the three of a depth with the same result; at
    both depths the successes are the 200 valid cases and the
    [invalid_format] cases that drew the one-digit text, and the failures are
    the rest of the 1000. *)
Theorem runners_on_the_generated_corpus (draws : nat -> nat)
    (shuffle : list (list (string * PyVal)) -> list (list (string * PyVal))) :
  rearranges shuffle ->
  let batch := loaded (generate_test_cases draws shuffle) in
  run_shallow_tuple batch = inr (run_shallow_exc batch) /\
  run_shallow_union batch = inr (run_shallow_exc batch) /\
  run_deep_tuple batch = inr (run_deep_exc batch) /\
  run_deep_union batch = inr (run_deep_exc batch) /\
  success (run_shallow_exc batch) = (200 + one_digit_draws draws)%Z /\
  failure (run_shallow_exc batch) = (800 - one_digit_draws draws)%Z /\
  success (run_deep_exc batch) = (200 + one_digit_draws draws)%Z /\
  failure (run_deep_exc batch) = (800 - one_digit_draws draws)%Z.
Proof.
  intros Hshuffle. cbv zeta. unfold generate_test_cases.
  pose proof (Hshuffle (cases_in_order draws)) as Hperm.
  set (cases := shuffle (cases_in_order draws)) in *.
  assert (Hlen : length (loaded cases) = 1000%nat).
  { unfold loaded. rewrite length_map, <- (Permutation_length Hperm).
    apply cases_in_order_length. }
  assert (Hmsg : Forall has_message (loaded cases)).
  { unfold loaded. apply Forall_map_all'.
    apply (Permutation_Forall Hperm). eapply Forall_impl;
      [apply cases_in_order_have_message|].
    intros tc [m Hm]. exists m. cbn [py_getitem]. rewrite Hm. reflexivity. }
  destruct (runners_agree _ Hmsg) as (Hst & Hsu & Hdt & Hdu).
  assert (Hperm' : Permutation (loaded (cases_in_order draws)) (loaded cases))
    by (apply Permutation_map, Hperm).
  destruct (successes_in_order draws) as [Hs Hd].
  assert (Hss : success (run_shallow_exc (loaded cases)) = (200 + one_digit_draws draws)%Z).
  { unfold run_shallow_exc.
    rewrite (fold_left_successes _ succeeds_shallow run_shallow_exc_case_succeeds).
    rewrite <- (filter_length_rearranged _ _ _ Hperm'), Hs.
    unfold one_digit_draws. cbn [success initial_results]. lia. }
  assert (Hsd : success (run_deep_exc (loaded cases)) = (200 + one_digit_draws draws)%Z).
  { unfold run_deep_exc.
    rewrite (fold_left_successes _ succeeds_deep run_deep_exc_case_succeeds).
    rewrite <- (filter_length_rearranged _ _ _ Hperm'), Hd.
    unfold one_digit_draws. cbn [success initial_results]. lia. }
  pose proof (fold_left_tallied _ run_shallow_exc_case_tallied (loaded cases)
                initial_results) as Hts.
  pose proof (fold_left_tallied _ run_deep_exc_case_tallied (loaded cases)
                initial_results) as Htd.
  fold (run_shallow_exc (loaded cases)) in Hts.
  fold (run_deep_exc (loaded cases)) in Htd.
  unfold cases_tallied in Hts, Htd. cbn [success failure initial_results] in Hts, Htd.
  rewrite Hlen in Hts, Htd.
  repeat split; try assumption; lia.
Qed.

Lemma runners_on_the_generated_corpus_witness :
  let batch := loaded (generate_test_cases (fun i => i) (@rev _)) in
  run_shallow_tuple batch = inr (run_shallow_exc batch) /\
  run_shallow_union batch = inr (run_shallow_exc batch) /\
  run_deep_tuple batch = inr (run_deep_exc batch) /\
  run_deep_union batch = inr (run_deep_exc batch) /\
  success (run_shallow_exc batch) = (200 + one_digit_draws (fun i => i))%Z /\
  failure (run_shallow_exc batch) = (800 - one_digit_draws (fun i => i))%Z /\
  success (run_deep_exc batch) = (200 + one_digit_draws (fun i => i))%Z /\
  failure (run_deep_exc batch) = (800 - one_digit_draws (fun i => i))%Z.
Proof.
  apply (runners_on_the_generated_corpus (fun i => i) (@rev _)).
  intros l. apply Permutation_rev.
Defined.
